(** * mbimcli, phonebook actions (src/cli/mbimcli-phonebook.c)

    A shallow embedding of the phonebook command-line actions of mbimcli.
    The C file keeps its state in file-scope variables (the option values,
    the two statics of the option check, the [ctx] pointer) and talks to
    glib, to the MBIM codec and to the device transport through calls.
    Here the variables are the fields of a [World] record threaded through
    a small monad, and every call into a collaborator is an [Event] appended
    to the world's trace, with the arguments the C code passes. *)

From Stdlib Require Import ZArith List String Ascii Bool Lia.
Import ListNotations.
Open Scope string_scope.
Open Scope list_scope.
Open Scope Z_scope.

Set Implicit Arguments.

(** ** Characters and strings of the C source *)

Definition nl : string := String "010"%char EmptyString.
Definition tab : string := String "009"%char EmptyString.
Definition comma : ascii := ","%char.

(** ** Handles, pointers and collaborator values *)

(** A GObject (the device, the cancellable) is known by its address. *)
Definition Handle := positive.

(** A possibly-NULL pointer to a GObject; [None] is NULL. *)
Definition gpointer := option Handle.

(** A possibly-NULL [gchar *]; [None] is NULL. *)
Definition gchar_p := option string.

Record GError := { message : string }.

Inductive MbimPhonebookFlag :=
| MBIM_PHONEBOOK_FLAG_ALL
| MBIM_PHONEBOOK_FLAG_INDEX.

Inductive MbimPhonebookWriteFlag :=
| MBIM_PHONEBOOK_WRITE_FLAG_SAVE_UNUSED
| MBIM_PHONEBOOK_WRITE_FLAG_SAVE_INDEX.

(** The request constructors of the codec, with the arguments as the caller
    writes them (the conversion of an index to the constructor's parameter
    type belongs to the codec's prototype, which is not part of this file). *)
Inductive MbimRequest :=
| mbim_message_phonebook_configuration_query_new
| mbim_message_phonebook_read_query_new (flag : MbimPhonebookFlag) (index : Z)
| mbim_message_phonebook_delete_set_new (flag : MbimPhonebookFlag) (index : Z)
| mbim_message_phonebook_write_set_new
    (flag : MbimPhonebookWriteFlag) (index : Z) (number name : gchar_p).

(** The four completion callbacks of the file, as passed to
    [mbim_device_command]. *)
Inductive GAsyncReadyCallback :=
| cb_query_phonebook_configuration_ready
| cb_query_phonebook_read_ready
| cb_set_phonebook_delete_ready
| cb_set_phonebook_write_ready.

(** An argument of a printf-style call. *)
Inductive PrintArg :=
| ArgStr (s : string)
| ArgInt (z : Z).

(** ** Events: the calls that leave this file *)

Inductive Event :=
| EvPrinterr (format : string) (args : list PrintArg)   (* g_printerr *)
| EvPrint (format : string) (args : list PrintArg)      (* g_print *)
| EvDebug (text : string)                               (* g_debug *)
| EvWarnIfReached                                       (* g_warn_if_reached *)
| EvSliceNew                                            (* g_slice_new (Context) *)
| EvSliceFree                                           (* g_slice_free (Context, _) *)
| EvObjectRef (h : Handle)                              (* g_object_ref *)
| EvObjectUnref (h : Handle)                            (* g_object_unref *)
| EvDeviceCommand (device : gpointer) (request : MbimRequest) (timeout : Z)
                  (cancellable : gpointer) (callback : GAsyncReadyCallback)
                                                        (* mbim_device_command *)
| EvRequestUnref                                        (* mbim_message_unref (request) *)
| EvResponseUnref                                       (* mbim_message_unref (response) *)
| EvErrorFree                                           (* g_error_free *)
| EvStrfreev                                            (* g_strfreev (split) *)
| EvFree                                                (* g_free (split) *)
| EvEntryArrayFree                                      (* mbim_phonebook_entry_array_free *)
| EvAsyncOperationDone (operation_status : bool).       (* mbimcli_async_operation_done *)

(** ** The file-scope variables *)

(** The option variables filled in by the option parser before any
    function of the file runs.  A [gboolean] option of kind
    G_OPTION_ARG_NONE holds FALSE (0) or TRUE (1); an int option holds the
    parsed [gint]; a string option is NULL until given. *)
Record Options := {
  phonebook_configuration_flag : bool;
  phonebook_read_index : Z;
  phonebook_read_all_flag : bool;
  phonebook_write_str : gchar_p;
  phonebook_entry_update_str : gchar_p;
  phonebook_delete_index : Z;
  phonebook_delete_all_flag : bool
}.

(** [typedef struct { MbimDevice *device; GCancellable *cancellable; } Context;] *)
Record Context := {
  device : gpointer;
  cancellable : gpointer
}.

Record World := {
  options : Options;
  (** [static guint n_actions] and [static gboolean checked] of
      [mbimcli_phonebook_options_enabled]. *)
  n_actions : Z;
  checked : bool;
  (** [static Context *ctx]: the block it points to, [None] while NULL.
      The pointer is not reset when the block is freed. *)
  ctx : option Context;
  (** What the block handed out by [g_slice_new] holds before it is
      written; the slice allocator does not clear it. *)
  slice_block : Context;
  trace : list Event
}.

Definition set_n_actions (n : Z) (w : World) : World :=
  {| options := options w; n_actions := n; checked := checked w;
     ctx := ctx w; slice_block := slice_block w; trace := trace w |}.

Definition set_checked (b : bool) (w : World) : World :=
  {| options := options w; n_actions := n_actions w; checked := b;
     ctx := ctx w; slice_block := slice_block w; trace := trace w |}.

Definition set_ctx (c : option Context) (w : World) : World :=
  {| options := options w; n_actions := n_actions w; checked := checked w;
     ctx := c; slice_block := slice_block w; trace := trace w |}.

Definition set_options (o : Options) (w : World) : World :=
  {| options := o; n_actions := n_actions w; checked := checked w;
     ctx := ctx w; slice_block := slice_block w; trace := trace w |}.

Definition add_event (e : Event) (w : World) : World :=
  {| options := options w; n_actions := n_actions w; checked := checked w;
     ctx := ctx w; slice_block := slice_block w; trace := trace w ++ [e] |}.

(** The process as the loader leaves it: statics zeroed, nothing traced. *)
Definition startup (o : Options) (junk : Context) : World :=
  {| options := o; n_actions := 0; checked := false;
     ctx := None; slice_block := junk; trace := [] |}.

(** ** The monad of the embedding *)

(** A C function either returns, or ends the process through [exit], or
    is stopped by a failed [g_assert] or a NULL dereference. *)
Inductive Res (A : Type) : Type :=
| Ret (a : A) (w : World)
| Exit (status : Z) (w : World)
| Abort (w : World).

Arguments Exit {A} status w.
Arguments Abort {A} w.

Definition M (A : Type) : Type := World -> Res A.

Definition ret {A} (a : A) : M A := fun w => Ret a w.

Definition bind {A B} (m : M A) (k : A -> M B) : M B :=
  fun w => match m w with
           | Ret a w' => k a w'
           | Exit s w' => Exit s w'
           | Abort w' => Abort w'
           end.

Notation "x <- m ;; k" := (bind m (fun x => k))
  (at level 61, m at next level, right associativity).
Notation "m ;;; k" := (bind m (fun _ => k))
  (at level 61, right associativity).

Definition emit (e : Event) : M unit := fun w => Ret tt (add_event e w).
Definition get : M World := fun w => Ret w w.
Definition modify (f : World -> World) : M unit := fun w => Ret tt (f w).
Definition exit {A} (status : Z) : M A := fun w => Exit status w.
Definition abort {A} : M A := fun w => Abort w.

Definition EXIT_FAILURE : Z := 1.

(** [!!x] on an integer and on a pointer. *)
Definition notnot (z : Z) : Z := if z =? 0 then 0 else 1.
Definition notnot_ptr {A} (p : option A) : Z :=
  match p with Some _ => 1 | None => 0 end.

(** ** mbimcli_phonebook_options_enabled *)

Definition mbimcli_phonebook_options_enabled : M bool :=
  w <- get ;;
  if checked w then ret (negb (n_actions w =? 0))
  else
    let o := options w in
    let n := Z.b2z (phonebook_configuration_flag o) +
             notnot (phonebook_read_index o) +
             Z.b2z (phonebook_read_all_flag o) +
             notnot_ptr (phonebook_write_str o) +
             notnot_ptr (phonebook_entry_update_str o) +
             notnot (phonebook_delete_index o) +
             Z.b2z (phonebook_delete_all_flag o) in
    modify (set_n_actions n) ;;;
    if 1 <? n then
      emit (EvPrinterr ("error: too many phonebook actions requested" ++ nl) []) ;;;
      exit EXIT_FAILURE
    else
      modify (set_checked true) ;;;
      ret (negb (n =? 0)).

(** ** context_free and shutdown *)

Definition g_object_unref (p : gpointer) : M unit :=
  match p with
  | Some h => emit (EvObjectUnref h)
  | None => ret tt
  end.

(** [context_free]: the two [if (context->...)] guards are those of
    [g_object_unref] above. *)
Definition context_free (context : option Context) : M unit :=
  match context with
  | None => ret tt
  | Some c =>
      g_object_unref (cancellable c) ;;;
      g_object_unref (device c) ;;;
      emit EvSliceFree
  end.

Definition shutdown (operation_status : bool) : M unit :=
  w <- get ;;
  context_free (ctx w) ;;;
  emit (EvAsyncOperationDone operation_status).

(** ** glib and libc helpers used by the parser *)

(** The fields of a string cut at every comma; never empty. *)
Fixpoint split_fields (s : string) : list string :=
  match s with
  | EmptyString => [EmptyString]
  | String c s' =>
      if Ascii.eqb c comma then EmptyString :: split_fields s'
      else match split_fields s' with
           | f :: fs => String c f :: fs
           | [] => [String c EmptyString]
           end
  end.

(** [g_strsplit (str, ",", -1)] as glib documents it: every comma cuts,
    there is no limit on the number of pieces, and the empty string gives
    the empty vector. *)
Definition g_strsplit (str : string) : list string :=
  match str with
  | EmptyString => []
  | _ => split_fields str
  end.

(** [split[i]] in a NULL-terminated vector: the element, or the NULL that
    ends the vector when [i] is its length. *)
Definition strv_nth (split : list string) (i : nat) : gchar_p :=
  nth_error split i.

Definition g_strv_length (split : list string) : nat := List.length split.

Definition isspace (c : ascii) : bool :=
  let n := nat_of_ascii c in
  Nat.eqb n 32 || (Nat.leb 9 n && Nat.leb n 13).

Definition digit_of (c : ascii) : option Z :=
  let n := nat_of_ascii c in
  if Nat.leb 48 n && Nat.leb n 57 then Some (Z.of_nat n - 48) else None.

Fixpoint skip_spaces (s : string) : string :=
  match s with
  | String c s' => if isspace c then skip_spaces s' else s
  | EmptyString => s
  end.

(** Value of the longest run of decimal digits at the head of [s]. *)
Fixpoint digits_value (acc : Z) (s : string) : Z :=
  match s with
  | String c s' =>
      match digit_of c with
      | Some d => digits_value (10 * acc + d) s'
      | None => acc
      end
  | EmptyString => acc
  end.

Definition plus_sign : ascii := "+"%char.
Definition minus_sign : ascii := "-"%char.

(** The sign, if any, and what follows it. *)
Definition take_sign (s : string) : bool * string :=
  match s with
  | String c s' =>
      if Ascii.eqb c minus_sign then (true, s')
      else if Ascii.eqb c plus_sign then (false, s')
      else (false, s)
  | EmptyString => (false, s)
  end.

Definition LONG_MAX : Z := 2 ^ 63 - 1.
Definition LONG_MIN : Z := - 2 ^ 63.

(** [strtol (s, NULL, 10)]: white space, an optional sign, then the longest
    run of digits; no digits give 0; the result saturates at the bounds of
    [long] (64 bits). *)
Definition strtol10 (s : string) : Z :=
  let (neg, rest) := take_sign (skip_spaces s) in
  let v := digits_value 0 rest in
  let v := if neg then - v else v in
  Z.max LONG_MIN (Z.min LONG_MAX v).

(** Conversion of a [long] to [int] (32 bits, two's complement). *)
Definition to_gint (z : Z) : Z := (z + 2 ^ 31) mod 2 ^ 32 - 2 ^ 31.

(** [atoi (s)] is [(int) strtol (s, NULL, 10)]. *)
Definition atoi (s : string) : Z := to_gint (strtol10 s).

(** ** phonebook_write_input_parse *)

Definition g_assert (b : bool) : M unit :=
  if b then ret tt else abort.

(** The [gboolean] result and the three out-parameters are returned
    together: [None] is FALSE (the out-parameters are left unwritten),
    [Some (name, number, index_str)] is TRUE.  The three assertions on
    the out-parameters hold at both call sites, which pass addresses of
    locals. *)
Definition phonebook_write_input_parse (n_expected : nat) (str : string)
  : M (option (gchar_p * gchar_p * gchar_p)) :=
  g_assert (Nat.eqb n_expected 2 || Nat.eqb n_expected 3) ;;;
  let split := g_strsplit str in
  if Nat.ltb n_expected (g_strv_length split) then
    emit (EvPrinterr ("error: couldn't parse input string, too many arguments" ++ nl) []) ;;;
    emit EvStrfreev ;;;
    ret None
  else if Nat.ltb (g_strv_length split) n_expected then
    emit (EvPrinterr ("error: couldn't parse input string, missing arguments" ++ nl) []) ;;;
    emit EvStrfreev ;;;
    ret None
  else
    let name := strv_nth split 0 in
    let number := strv_nth split 1 in
    let index_str := strv_nth split 2 in
    emit EvFree ;;;
    ret (Some (name, number, index_str)).

(** ** The codec and the transport, at their interface *)

(** Modelled from the spec: [MbimPhonebookEntry] is declared in the codec's
    generated headers; the fields are those the read callback prints, an
    index and two texts. *)
Record MbimPhonebookEntry := {
  entry_index : Z;
  number : string;
  name : string
}.

(** The decoded configuration: state, number of entries, used entries,
    max number length, max name length. *)
Definition ConfigurationPayload : Type := (Z * Z * Z * Z * Z)%type.

(** The response parsers and the label lookup of the codec.  A parser
    returns the [GError] it sets, or the values it writes through its
    out-parameters.  The read parser returns an array of [entry_count]
    entries, which [read_response_entry_count] records. *)
Class Codec := {
  MbimMessage : Type;
  mbim_message_phonebook_configuration_response_parse :
    MbimMessage -> GError + ConfigurationPayload;
  mbim_message_phonebook_read_response_parse :
    MbimMessage -> GError + (Z * list MbimPhonebookEntry);
  mbim_message_phonebook_write_response_parse : MbimMessage -> GError + unit;
  mbim_message_phonebook_delete_response_parse : MbimMessage -> GError + unit;
  mbim_phonebook_state_get_string : Z -> gchar_p;
  read_response_entry_count :
    forall m n es,
      mbim_message_phonebook_read_response_parse m = inr (n, es) ->
      n = Z.of_nat (List.length es)
}.

Section Phonebook.

Context {codec : Codec}.

(** What the transport hands to a completion callback: the outcome that
    [mbim_device_command_finish] extracts, an error or a response. *)
Definition GAsyncResult : Type := (GError + MbimMessage)%type.

Definition mbim_device_command_finish (device : gpointer) (res : GAsyncResult)
  : GError + MbimMessage := res.

(** ** The completion callbacks *)

Definition set_phonebook_write_ready (device : gpointer) (res : GAsyncResult)
  : M unit :=
  match mbim_device_command_finish device res with
  | inl error =>
      emit (EvPrinterr ("error: operation failed: %s" ++ nl)
                       [ArgStr (message error)]) ;;;
      emit EvErrorFree ;;;
      shutdown false
  | inr response =>
      match mbim_message_phonebook_write_response_parse response with
      | inl error =>
          emit (EvPrinterr ("error: couldn't parse response message: %s" ++ nl)
                           [ArgStr (message error)]) ;;;
          emit EvErrorFree ;;;
          shutdown false
      | inr _ =>
          emit (EvPrint ("Phonebook entry successfully written/updated" ++ nl) []) ;;;
          emit EvResponseUnref ;;;
          shutdown true
      end
  end.

Definition set_phonebook_delete_ready (device : gpointer) (res : GAsyncResult)
  : M unit :=
  match mbim_device_command_finish device res with
  | inl error =>
      emit (EvPrinterr ("error: operation failed: %s" ++ nl)
                       [ArgStr (message error)]) ;;;
      emit EvErrorFree ;;;
      shutdown false
  | inr response =>
      match mbim_message_phonebook_delete_response_parse response with
      | inl error =>
          emit (EvPrinterr ("error: couldn't parse response message: %s" ++ nl)
                           [ArgStr (message error)]) ;;;
          emit EvErrorFree ;;;
          shutdown false
      | inr _ =>
          emit (EvPrint "Phonebook entry/entries successfully deleted" []) ;;;
          emit EvResponseUnref ;;;
          shutdown true
      end
  end.

Definition entry_format : string :=
  tab ++ "Entry index : %d " ++ nl ++
  tab ++ "      Number: %s " ++ nl ++
  tab ++ "        Name: %s " ++ nl.

Definition print_entry (e : MbimPhonebookEntry) : Event :=
  EvPrint entry_format
          [ArgInt (entry_index e); ArgStr (number e); ArgStr (name e)].

(** [for (i = 0; i < entry_count; i++)] with [todo] iterations left;
    [phonebook_entries[i]] past the end of the array is a fault. *)
Fixpoint print_entries_from (phonebook_entries : list MbimPhonebookEntry)
         (i todo : nat) : M unit :=
  match todo with
  | O => ret tt
  | S todo' =>
      match nth_error phonebook_entries i with
      | Some e =>
          emit (print_entry e) ;;;
          print_entries_from phonebook_entries (S i) todo'
      | None => abort
      end
  end.

Definition query_phonebook_read_ready (device : gpointer) (res : GAsyncResult)
  : M unit :=
  match mbim_device_command_finish device res with
  | inl error =>
      emit (EvPrinterr ("error: operation failed: %s" ++ nl)
                       [ArgStr (message error)]) ;;;
      emit EvErrorFree ;;;
      shutdown false
  | inr response =>
      match mbim_message_phonebook_read_response_parse response with
      | inl error =>
          emit (EvPrinterr ("error: couldn't parse response message: %s" ++ nl)
                           [ArgStr (message error)]) ;;;
          emit EvErrorFree ;;;
          shutdown false
      | inr (entry_count, phonebook_entries) =>
          emit (EvPrint ("Successfully read phonebook entry/entries" ++ nl) []) ;;;
          emit (EvPrint (tab ++ "Phonebook entries count: %d" ++ nl)
                        [ArgInt entry_count]) ;;;
          print_entries_from phonebook_entries 0 (Z.to_nat entry_count) ;;;
          emit EvEntryArrayFree ;;;
          emit EvResponseUnref ;;;
          shutdown true
      end
  end.

(** [#define VALIDATE_UNKNOWN(str) (str ? str : "unknown")] *)
Definition VALIDATE_UNKNOWN (str : gchar_p) : string :=
  match str with
  | Some s => s
  | None => "unknown"
  end.

Definition configuration_format : string :=
  nl ++ " Phonebook configuration retrived... " ++ nl ++
  tab ++ "   Phonebook state: %s " ++ nl ++
  tab ++ " Number of entries: %d " ++ nl ++
  tab ++ "      used entries: %d " ++ nl ++
  tab ++ " max number length: %d " ++ nl ++
  tab ++ "         max name : %d " ++ nl.

Definition query_phonebook_configuration_ready (device : gpointer)
           (res : GAsyncResult) : M unit :=
  match mbim_device_command_finish device res with
  | inl error =>
      emit (EvPrinterr ("error: operation failed: %s" ++ nl)
                       [ArgStr (message error)]) ;;;
      emit EvErrorFree ;;;
      shutdown false
  | inr response =>
      match mbim_message_phonebook_configuration_response_parse response with
      | inl error =>
          emit (EvPrinterr ("error: couldn't parse response message: %s" ++ nl)
                           [ArgStr (message error)]) ;;;
          emit EvErrorFree ;;;
          shutdown false
      | inr (state, number_of_entries, used_entries, max_number_length, max_name) =>
          let state_str := mbim_phonebook_state_get_string state in
          emit (EvPrint configuration_format
                        [ArgStr (VALIDATE_UNKNOWN state_str);
                         ArgInt number_of_entries;
                         ArgInt used_entries;
                         ArgInt max_number_length;
                         ArgInt max_name]) ;;;
          emit EvResponseUnref ;;;
          shutdown true
      end
  end.

(** ** mbimcli_phonebook_run *)

(** [mbim_device_command (ctx->device, request, timeout, ctx->cancellable,
    callback, NULL)]: the two pointers are read from the block [ctx]
    points to. *)
Definition mbim_device_command (request : MbimRequest) (timeout : Z)
           (callback : GAsyncReadyCallback) : M unit :=
  w <- get ;;
  match ctx w with
  | Some c =>
      emit (EvDeviceCommand (device c) request timeout (cancellable c) callback)
  | None => abort
  end.

(** [atoi] applied to a [gchar *]; NULL is a fault. *)
Definition atoi_ptr (p : gchar_p) : M Z :=
  match p with
  | Some s => ret (atoi s)
  | None => abort
  end.

Definition mbimcli_phonebook_run (dev : Handle) (canc : gpointer) : M unit :=
  (* Initialize context *)
  emit EvSliceNew ;;;
  w <- get ;;
  emit (EvObjectRef dev) ;;;
  canc_field <- match canc with
                | Some c => emit (EvObjectRef c) ;;; ret (Some c)
                | None => ret (cancellable (slice_block w))
                end ;;
  modify (set_ctx (Some {| device := Some dev; cancellable := canc_field |})) ;;;
  let o := options w in
  if phonebook_configuration_flag o then
    emit (EvDebug "Asynchronously querying phonebook configurations...") ;;;
    mbim_device_command mbim_message_phonebook_configuration_query_new
                        10 cb_query_phonebook_configuration_ready ;;;
    emit EvRequestUnref
  else if negb (phonebook_read_index o =? 0) then
    emit (EvDebug "Asynchronously querying phonebook read...") ;;;
    mbim_device_command
      (mbim_message_phonebook_read_query_new MBIM_PHONEBOOK_FLAG_INDEX
                                             (phonebook_read_index o))
      10 cb_query_phonebook_read_ready ;;;
    emit EvRequestUnref
  else if phonebook_read_all_flag o then
    emit (EvDebug "Asynchronously querying phonebook read all...") ;;;
    mbim_device_command
      (mbim_message_phonebook_read_query_new MBIM_PHONEBOOK_FLAG_ALL 0)
      10 cb_query_phonebook_read_ready ;;;
    emit EvRequestUnref
  else if negb (phonebook_delete_index o =? 0) then
    emit (EvDebug "Asynchronously phonebook delete...") ;;;
    mbim_device_command
      (mbim_message_phonebook_delete_set_new MBIM_PHONEBOOK_FLAG_INDEX
                                             (phonebook_delete_index o))
      10 cb_set_phonebook_delete_ready ;;;
    emit EvRequestUnref
  else if phonebook_delete_all_flag o then
    emit (EvDebug "Asynchronously phonebook delete all...") ;;;
    mbim_device_command
      (mbim_message_phonebook_delete_set_new MBIM_PHONEBOOK_FLAG_ALL 0)
      10 cb_set_phonebook_delete_ready ;;;
    emit EvRequestUnref
  else
    match phonebook_write_str o with
    | Some write_str =>
        emit (EvDebug "Asynchronously writing phonebook...") ;;;
        parsed <- phonebook_write_input_parse 2 write_str ;;
        match parsed with
        | None => shutdown false
        | Some (name, number, index_str) =>
            mbim_device_command
              (mbim_message_phonebook_write_set_new
                 MBIM_PHONEBOOK_WRITE_FLAG_SAVE_UNUSED 0 number name)
              10 cb_set_phonebook_write_ready ;;;
            emit EvRequestUnref
        end
    | None =>
        match phonebook_entry_update_str o with
        | Some update_str =>
            emit (EvDebug "Asynchronously updating phonebook entry...") ;;;
            parsed <- phonebook_write_input_parse 3 update_str ;;
            match parsed with
            | None => shutdown false
            | Some (name, number, index_str) =>
                idx <- atoi_ptr index_str ;;
                mbim_device_command
                  (mbim_message_phonebook_write_set_new
                     MBIM_PHONEBOOK_WRITE_FLAG_SAVE_INDEX idx number name)
                  10 cb_set_phonebook_write_ready ;;;
                emit EvRequestUnref
            end
        | None => emit EvWarnIfReached
        end
    end.

(** ** The transport's side of one run *)

(** The transport calls the callback it was given, with the device the
    command was sent to. *)
Definition invoke (callback : GAsyncReadyCallback) (device : gpointer)
           (res : GAsyncResult) : M unit :=
  match callback with
  | cb_query_phonebook_configuration_ready =>
      query_phonebook_configuration_ready device res
  | cb_query_phonebook_read_ready => query_phonebook_read_ready device res
  | cb_set_phonebook_delete_ready => set_phonebook_delete_ready device res
  | cb_set_phonebook_write_ready => set_phonebook_write_ready device res
  end.

(** The commands handed to the transport in a trace. *)
Fixpoint submitted (tr : list Event)
  : list (gpointer * MbimRequest * Z * gpointer * GAsyncReadyCallback) :=
  match tr with
  | [] => []
  | EvDeviceCommand d r t c cb :: tr' => (d, r, t, c, cb) :: submitted tr'
  | _ :: tr' => submitted tr'
  end.

(** Completion of every command of the list, each callback called once. *)
Fixpoint complete_all
         (cmds : list (gpointer * MbimRequest * Z * gpointer * GAsyncReadyCallback))
         (res : GAsyncResult) : M unit :=
  match cmds with
  | [] => ret tt
  | (d, _, _, _, cb) :: cmds' => invoke cb d res ;;; complete_all cmds' res
  end.

(** One run of the phonebook action from start to end: the action is
    started, and the transport completes what was submitted with [res]. *)
Definition run_to_completion (dev : Handle) (canc : gpointer)
           (res : GAsyncResult) : M unit :=
  w0 <- get ;;
  mbimcli_phonebook_run dev canc ;;;
  w1 <- get ;;
  complete_all (submitted (skipn (List.length (trace w0)) (trace w1))) res.

End Phonebook.

(** ** Vocabulary of the statements *)

Definition add_events (evs : list Event) (w : World) : World :=
  {| options := options w; n_actions := n_actions w; checked := checked w;
     ctx := ctx w; slice_block := slice_block w; trace := trace w ++ evs |}.

Definition is_set_int (z : Z) : bool := negb (z =? 0).
Definition is_set_ptr {A} (p : option A) : bool :=
  match p with Some _ => true | None => false end.

(** The action indicators, one per option, and how many of them are set. *)
Definition indicators (o : Options) : list bool :=
  [ phonebook_configuration_flag o;
    is_set_int (phonebook_read_index o);
    phonebook_read_all_flag o;
    is_set_ptr (phonebook_write_str o);
    is_set_ptr (phonebook_entry_update_str o);
    is_set_int (phonebook_delete_index o);
    phonebook_delete_all_flag o ].

Definition count_set (o : Options) : nat :=
  List.length (filter (fun b : bool => b) (indicators o)).

(** The option variables when no phonebook option was given. *)
Definition no_options : Options :=
  {| phonebook_configuration_flag := false;
     phonebook_read_index := 0;
     phonebook_read_all_flag := false;
     phonebook_write_str := None;
     phonebook_entry_update_str := None;
     phonebook_delete_index := 0;
     phonebook_delete_all_flag := false |}.

(** The actions of the data model, with the arguments as given on the
    command line (the index of an update is still text there). *)
Inductive Action :=
| QueryConfiguration
| ReadOne (index : Z)
| ReadAll
| Write (name number : string)
| UpdateEntry (name number index : string)
| DeleteOne (index : Z)
| DeleteAll.

Definition join2 (a b : string) : string := a ++ String comma b.
Definition join3 (a b c : string) : string := a ++ String comma (b ++ String comma c).

(** The option variables after the option parser has seen the one option
    of an action. *)
Definition cli_options (a : Action) : Options :=
  match a with
  | QueryConfiguration =>
      {| phonebook_configuration_flag := true;
         phonebook_read_index := 0; phonebook_read_all_flag := false;
         phonebook_write_str := None; phonebook_entry_update_str := None;
         phonebook_delete_index := 0; phonebook_delete_all_flag := false |}
  | ReadOne index =>
      {| phonebook_configuration_flag := false;
         phonebook_read_index := index; phonebook_read_all_flag := false;
         phonebook_write_str := None; phonebook_entry_update_str := None;
         phonebook_delete_index := 0; phonebook_delete_all_flag := false |}
  | ReadAll =>
      {| phonebook_configuration_flag := false;
         phonebook_read_index := 0; phonebook_read_all_flag := true;
         phonebook_write_str := None; phonebook_entry_update_str := None;
         phonebook_delete_index := 0; phonebook_delete_all_flag := false |}
  | Write name number =>
      {| phonebook_configuration_flag := false;
         phonebook_read_index := 0; phonebook_read_all_flag := false;
         phonebook_write_str := Some (join2 name number);
         phonebook_entry_update_str := None;
         phonebook_delete_index := 0; phonebook_delete_all_flag := false |}
  | UpdateEntry name number index =>
      {| phonebook_configuration_flag := false;
         phonebook_read_index := 0; phonebook_read_all_flag := false;
         phonebook_write_str := None;
         phonebook_entry_update_str := Some (join3 name number index);
         phonebook_delete_index := 0; phonebook_delete_all_flag := false |}
  | DeleteOne index =>
      {| phonebook_configuration_flag := false;
         phonebook_read_index := 0; phonebook_read_all_flag := false;
         phonebook_write_str := None; phonebook_entry_update_str := None;
         phonebook_delete_index := index; phonebook_delete_all_flag := false |}
  | DeleteAll =>
      {| phonebook_configuration_flag := false;
         phonebook_read_index := 0; phonebook_read_all_flag := false;
         phonebook_write_str := None; phonebook_entry_update_str := None;
         phonebook_delete_index := 0; phonebook_delete_all_flag := true |}
  end.

Fixpoint comma_free (s : string) : bool :=
  match s with
  | EmptyString => true
  | String c s' => negb (Ascii.eqb c comma) && comma_free s'
  end.

(** An action the command line can express and the option check counts:
    an index option is given a non-zero index, and the texts of a write or
    an update hold no comma of their own. *)
Definition selectable (a : Action) : bool :=
  match a with
  | ReadOne index | DeleteOne index => is_set_int index
  | Write name number => comma_free name && comma_free number
  | UpdateEntry name number index =>
      comma_free name && comma_free number && comma_free index
  | _ => true
  end.

(** The request of each action, after the table of the request builder. *)
Definition request_table (a : Action) : MbimRequest :=
  match a with
  | QueryConfiguration => mbim_message_phonebook_configuration_query_new
  | ReadOne index =>
      mbim_message_phonebook_read_query_new MBIM_PHONEBOOK_FLAG_INDEX index
  | ReadAll => mbim_message_phonebook_read_query_new MBIM_PHONEBOOK_FLAG_ALL 0
  | DeleteOne index =>
      mbim_message_phonebook_delete_set_new MBIM_PHONEBOOK_FLAG_INDEX index
  | DeleteAll => mbim_message_phonebook_delete_set_new MBIM_PHONEBOOK_FLAG_ALL 0
  | Write name number =>
      mbim_message_phonebook_write_set_new
        MBIM_PHONEBOOK_WRITE_FLAG_SAVE_UNUSED 0 (Some number) (Some name)
  | UpdateEntry name number index =>
      mbim_message_phonebook_write_set_new
        MBIM_PHONEBOOK_WRITE_FLAG_SAVE_INDEX (atoi index) (Some number) (Some name)
  end.

(** The callback that decodes the response of each action. *)
Definition completion_callback (a : Action) : GAsyncReadyCallback :=
  match a with
  | QueryConfiguration => cb_query_phonebook_configuration_ready
  | ReadOne _ | ReadAll => cb_query_phonebook_read_ready
  | DeleteOne _ | DeleteAll => cb_set_phonebook_delete_ready
  | Write _ _ | UpdateEntry _ _ _ => cb_set_phonebook_write_ready
  end.

Definition is_digit (c : ascii) : bool :=
  match digit_of c with Some _ => true | None => false end.

Fixpoint all_digits (s : string) : bool :=
  match s with
  | EmptyString => true
  | String c s' => is_digit c && all_digits s'
  end.

(** A decimal numeral: an optional sign and one digit or more, nothing else. *)
Definition numeric (s : string) : bool :=
  match snd (take_sign s) with
  | EmptyString => false
  | rest => all_digits rest
  end.

(** The text starts, after white space and an optional sign, with a digit. *)
Definition leading_digit (s : string) : bool :=
  match snd (take_sign (skip_spaces s)) with
  | String c _ => is_digit c
  | EmptyString => false
  end.

(** The indexes of the write requests handed to the transport. *)
Fixpoint written_indexes (tr : list Event) : list Z :=
  match tr with
  | [] => []
  | EvDeviceCommand _ (mbim_message_phonebook_write_set_new _ index _ _) _ _ _ :: tr' =>
      index :: written_indexes tr'
  | _ :: tr' => written_indexes tr'
  end.

(** What finalization emits for a context: the cancellable and the device
    are released when held, the block is freed, and the outcome is
    reported. *)
Definition release (context : option Context) : list Event :=
  match context with
  | None => []
  | Some c =>
      (match cancellable c with Some h => [EvObjectUnref h] | None => [] end) ++
      (match device c with Some h => [EvObjectUnref h] | None => [] end) ++
      [EvSliceFree]
  end.

Definition finalized (context : option Context) (outcome : bool) : list Event :=
  release context ++ [EvAsyncOperationDone outcome].

(** The events that take, give back or report on something held by a run. *)
Definition is_resource_event (e : Event) : bool :=
  match e with
  | EvSliceNew | EvSliceFree | EvObjectRef _ | EvObjectUnref _
  | EvAsyncOperationDone _ => true
  | _ => false
  end.

(** The calls of [g_print] and [g_printerr] in a trace. *)
Definition is_print_event (e : Event) : bool :=
  match e with
  | EvPrint _ _ | EvPrinterr _ _ => true
  | _ => false
  end.

(** The outcomes reported to [mbimcli_async_operation_done] in a trace. *)
Fixpoint reported (tr : list Event) : list bool :=
  match tr with
  | [] => []
  | EvAsyncOperationDone b :: tr' => b :: reported tr'
  | _ :: tr' => reported tr'
  end.

(** ** The outcome of the command in flight *)

Inductive Payload :=
| ConfigurationFields (fields : ConfigurationPayload)
| EntryArray (entry_count : Z) (entries : list MbimPhonebookEntry)
| WriteAcknowledged
| DeleteAcknowledged.

Inductive OperationOutcome :=
| Success (payload : Payload)
| ProtocolFailure (text : string)
| TransportFailure (text : string).

Definition succeeded (o : OperationOutcome) : bool :=
  match o with
  | Success _ => true
  | _ => false
  end.

Section Resolver.

Context {codec : Codec}.

(** The response parser that goes with each callback. *)
Definition decode (callback : GAsyncReadyCallback) (response : MbimMessage)
  : GError + Payload :=
  match callback with
  | cb_query_phonebook_configuration_ready =>
      match mbim_message_phonebook_configuration_response_parse response with
      | inl e => inl e
      | inr fields => inr (ConfigurationFields fields)
      end
  | cb_query_phonebook_read_ready =>
      match mbim_message_phonebook_read_response_parse response with
      | inl e => inl e
      | inr (n, es) => inr (EntryArray n es)
      end
  | cb_set_phonebook_delete_ready =>
      match mbim_message_phonebook_delete_response_parse response with
      | inl e => inl e
      | inr _ => inr DeleteAcknowledged
      end
  | cb_set_phonebook_write_ready =>
      match mbim_message_phonebook_write_response_parse response with
      | inl e => inl e
      | inr _ => inr WriteAcknowledged
      end
  end.

Definition outcome_of (callback : GAsyncReadyCallback) (res : GAsyncResult)
  : OperationOutcome :=
  match res with
  | inl e => TransportFailure (message e)
  | inr response =>
      match decode callback response with
      | inl e => ProtocolFailure (message e)
      | inr payload => Success payload
      end
  end.

(** The response formatter: what is printed for each decoded payload. *)
Definition formatter (payload : Payload) : list Event :=
  match payload with
  | ConfigurationFields (state, number_of_entries, used_entries,
                         max_number_length, max_name) =>
      [EvPrint configuration_format
               [ArgStr (match mbim_phonebook_state_get_string state with
                        | Some label => label
                        | None => "unknown"
                        end);
                ArgInt number_of_entries; ArgInt used_entries;
                ArgInt max_number_length; ArgInt max_name]]
  | EntryArray entry_count entries =>
      EvPrint ("Successfully read phonebook entry/entries" ++ nl) [] ::
      EvPrint (tab ++ "Phonebook entries count: %d" ++ nl) [ArgInt entry_count] ::
      map print_entry entries
  | WriteAcknowledged =>
      [EvPrint ("Phonebook entry successfully written/updated" ++ nl) []]
  | DeleteAcknowledged =>
      [EvPrint "Phonebook entry/entries successfully deleted" []]
  end.

(** The decoded payload is given back once printed. *)
Definition discard (payload : Payload) : list Event :=
  match payload with
  | EntryArray _ _ => [EvEntryArrayFree; EvResponseUnref]
  | _ => [EvResponseUnref]
  end.

(** The resolver of the state machine: a failure is printed and finalized
    with false, a decoded payload goes to the formatter and is finalized
    with true. *)
Definition resolution (context : option Context) (o : OperationOutcome)
  : list Event :=
  match o with
  | TransportFailure text =>
      [EvPrinterr ("error: operation failed: %s" ++ nl) [ArgStr text];
       EvErrorFree] ++ finalized context false
  | ProtocolFailure text =>
      [EvPrinterr ("error: couldn't parse response message: %s" ++ nl)
                  [ArgStr text];
       EvErrorFree] ++ finalized context false
  | Success payload =>
      formatter payload ++ discard payload ++ finalized context true
  end.

End Resolver.

(** ** A small codec to run the definitions on *)

Inductive DemoMessage :=
| DemoConfiguration (fields : ConfigurationPayload)
| DemoEntries (entries : list MbimPhonebookEntry)
| DemoAcknowledgement
| DemoMalformed.

Definition demo_error : GError := {| message := "malformed response" |}.

#[local] Instance demo_codec : Codec := {|
  MbimMessage := DemoMessage;
  mbim_message_phonebook_configuration_response_parse := fun m =>
    match m with DemoConfiguration fields => inr fields | _ => inl demo_error end;
  mbim_message_phonebook_read_response_parse := fun m =>
    match m with
    | DemoEntries es => inr (Z.of_nat (List.length es), es)
    | _ => inl demo_error
    end;
  mbim_message_phonebook_write_response_parse := fun m =>
    match m with DemoAcknowledgement => inr tt | _ => inl demo_error end;
  mbim_message_phonebook_delete_response_parse := fun m =>
    match m with DemoAcknowledgement => inr tt | _ => inl demo_error end;
  mbim_phonebook_state_get_string := fun state =>
    if state =? 0 then Some "not-initialized"
    else if state =? 1 then Some "initialized"
    else None;
  read_response_entry_count :=
    ltac:(intros [fields | es0 | | ] n es H; simpl in H;
          try discriminate H; inversion H; reflexivity)
|}.

(** The two errors of the input parser. *)
Definition missing_arguments : Event :=
  EvPrinterr ("error: couldn't parse input string, missing arguments" ++ nl) [].

Definition too_many_arguments : Event :=
  EvPrinterr ("error: couldn't parse input string, too many arguments" ++ nl) [].

(** The number of commas of a text. *)
Fixpoint count_commas (s : string) : nat :=
  match s with
  | EmptyString => 0
  | String c s' => (if Ascii.eqb c comma then 1 else 0) + count_commas s'
  end.

(** ** Sample inputs *)

(** Two options at once: the configuration query and a delete by index. *)
Definition two_actions : Options :=
  {| phonebook_configuration_flag := true;
     phonebook_read_index := 0;
     phonebook_read_all_flag := false;
     phonebook_write_str := None;
     phonebook_entry_update_str := None;
     phonebook_delete_index := 3;
     phonebook_delete_all_flag := false |}.

(** A block of the slice allocator that happens to hold two NULLs. *)
Definition clean_block : Context := {| device := None; cancellable := None |}.

(** The two entries of the read example. *)
Definition alice : MbimPhonebookEntry :=
  {| entry_index := 1; number := "555-1000"; name := "Alice" |}.

Definition bob : MbimPhonebookEntry :=
  {| entry_index := 2; number := "555-2000"; name := "Bob" |}.

(** A configuration whose state code (7) has no label. *)
Definition odd_configuration : ConfigurationPayload := (7, 250, 12, 40, 20).

Definition timed_out : GError := {| message := "operation timed out" |}.

Definition the_device : Handle := 1%positive.
Definition the_cancellable : Handle := 2%positive.

(** ** The option table *)

(** The kinds of argument of the table: [G_OPTION_ARG_NONE] takes no value
    and stores TRUE, [G_OPTION_ARG_INT] stores the parsed integer,
    [G_OPTION_ARG_STRING] stores the text. *)
Inductive GOptionArg :=
| G_OPTION_ARG_NONE
| G_OPTION_ARG_INT
| G_OPTION_ARG_STRING.

(** The addresses an entry can carry as [arg_data]. *)
Inductive OptionVariable :=
| addr_phonebook_configuration_flag
| addr_phonebook_read_index
| addr_phonebook_read_all_flag
| addr_phonebook_write_str
| addr_phonebook_entry_update_str
| addr_phonebook_delete_index
| addr_phonebook_delete_all_flag.

Record GOptionEntry := {
  long_name : string;
  short_name : Z;
  flags : Z;
  arg : GOptionArg;
  arg_data : OptionVariable;
  description : string;
  arg_description : gchar_p
}.

(** [static GOptionEntry entries[]], without the terminating [{ NULL }]. *)
Definition entries : list GOptionEntry :=
  [ {| long_name := "phonebook-query-configuration"; short_name := 0; flags := 0;
       arg := G_OPTION_ARG_NONE; arg_data := addr_phonebook_configuration_flag;
       description := "Query the phonebook configuration";
       arg_description := None |};
    {| long_name := "phonebook-read"; short_name := 0; flags := 0;
       arg := G_OPTION_ARG_INT; arg_data := addr_phonebook_read_index;
       description := "Read phonebook entry with given index";
       arg_description := Some "[(Phonebook index)]" |};
    {| long_name := "phonebook-read-all"; short_name := 0; flags := 0;
       arg := G_OPTION_ARG_NONE; arg_data := addr_phonebook_read_all_flag;
       description := "Read all phonebook entries";
       arg_description := None |};
    {| long_name := "phonebook-write"; short_name := 0; flags := 0;
       arg := G_OPTION_ARG_STRING; arg_data := addr_phonebook_write_str;
       description := "Add new phonebook entry";
       arg_description := Some "[(Name),(Number)]" |};
    {| long_name := "phonebook-entry-update"; short_name := 0; flags := 0;
       arg := G_OPTION_ARG_STRING; arg_data := addr_phonebook_entry_update_str;
       description := "Update phonebook entry";
       arg_description := Some "[(Name),(Number),(Index)]" |};
    {| long_name := "phonebook-delete"; short_name := 0; flags := 0;
       arg := G_OPTION_ARG_INT; arg_data := addr_phonebook_delete_index;
       description := "Delete phonebook entry with given index";
       arg_description := Some "[(Phonebook index)]" |};
    {| long_name := "phonebook-delete-all"; short_name := 0; flags := 0;
       arg := G_OPTION_ARG_NONE; arg_data := addr_phonebook_delete_all_flag;
       description := "Delete all phonebook entries";
       arg_description := None |} ].









(** ** More vocabulary *)

(** The option variables with only the write text, or only the update
    text, given. *)
Definition write_option (str : string) : Options :=
  {| phonebook_configuration_flag := false;
     phonebook_read_index := 0; phonebook_read_all_flag := false;
     phonebook_write_str := Some str; phonebook_entry_update_str := None;
     phonebook_delete_index := 0; phonebook_delete_all_flag := false |}.

Definition update_option (str : string) : Options :=
  {| phonebook_configuration_flag := false;
     phonebook_read_index := 0; phonebook_read_all_flag := false;
     phonebook_write_str := None; phonebook_entry_update_str := Some str;
     phonebook_delete_index := 0; phonebook_delete_all_flag := false |}.

(** The fields put back together, a comma between two fields. *)
Fixpoint join_fields (fields : list string) : string :=
  match fields with
  | [] => EmptyString
  | [f] => f
  | f :: fs => f ++ String comma (join_fields fs)
  end.

(** The strings behind the non-NULL pointers of a list. *)
Fixpoint present (ps : list gchar_p) : list string :=
  match ps with
  | [] => []
  | Some s :: ps' => s :: present ps'
  | None :: ps' => present ps'
  end.


(** The events of a run that neither touch a resource nor reach the
    transport: debug lines, the parser's error and its frees. *)
Definition is_housekeeping (e : Event) : bool :=
  match e with
  | EvDebug _ | EvPrinterr _ _ | EvStrfreev | EvFree => true
  | _ => false
  end.

Definition is_warning (e : Event) : bool :=
  match e with
  | EvWarnIfReached => true
  | _ => false
  end.

Definition is_response_unref (e : Event) : bool :=
  match e with
  | EvResponseUnref => true
  | _ => false
  end.

Definition is_error_free (e : Event) : bool :=
  match e with
  | EvErrorFree => true
  | _ => false
  end.

(** What [ctx->cancellable] holds once [mbimcli_phonebook_run] has filled
    the context in. *)
Definition cancellable_field (canc : gpointer) (w : World) : gpointer :=
  match canc with
  | Some c => Some c
  | None => cancellable (slice_block w)
  end.

(** The references a run takes at its start. *)
Definition acquired (dev : Handle) (canc : gpointer) : list Event :=
  EvSliceNew :: EvObjectRef dev ::
  match canc with
  | Some c => [EvObjectRef c]
  | None => []
  end.

(** A block of the slice allocator that holds the address of some other
    object where the cancellable goes. *)
Definition stale_block : Context :=
  {| device := None; cancellable := Some 9%positive |}.

(** The cancellable a submitted command was given. *)
Definition command_cancellable
           (cmd : gpointer * MbimRequest * Z * gpointer * GAsyncReadyCallback)
  : gpointer :=
  match cmd with
  | (_, _, _, cn, _) => cn
  end.

(** The statics of the option check agree with the option variables: once
    the check has run, the cached count is the number of indicators set,
    and it is at most one. *)
Definition check_consistent (w : World) : Prop :=
  checked w = true ->
  n_actions w = Z.of_nat (count_set (options w))
  /\ (count_set (options w) <= 1)%nat.

(** * Properties *)

(** ** Traces and worlds *)

Lemma add_events_nil (w : World) : add_events [] w = w.
Proof.
  destruct w; unfold add_events; simpl. now rewrite app_nil_r.
Qed.

Lemma add_event_events (e : Event) (evs : list Event) (w : World) :
  add_event e (add_events evs w) = add_events (evs ++ [e]) w.
Proof.
  unfold add_event, add_events; simpl. now rewrite app_assoc.
Qed.

Lemma add_events_events (evs1 evs2 : list Event) (w : World) :
  add_events evs2 (add_events evs1 w) = add_events (evs1 ++ evs2) w.
Proof.
  unfold add_events; simpl. now rewrite app_assoc.
Qed.

Lemma add_event_one (e : Event) (w : World) :
  add_event e w = add_events [e] w.
Proof. reflexivity. Qed.

Lemma ctx_add_events (evs : list Event) (w : World) :
  ctx (add_events evs w) = ctx w.
Proof. reflexivity. Qed.

Lemma skipn_length_app {A} (l r : list A) :
  skipn (List.length l) (l ++ r) = r.
Proof. induction l; simpl; auto. Qed.

Lemma submitted_app (tr1 tr2 : list Event) :
  submitted (tr1 ++ tr2) = submitted tr1 ++ submitted tr2.
Proof.
  induction tr1 as [| e tr1 IH]; simpl; auto.
  destruct e; simpl; rewrite ?IH; reflexivity.
Qed.

Lemma reported_app (tr1 tr2 : list Event) :
  reported (tr1 ++ tr2) = reported tr1 ++ reported tr2.
Proof.
  induction tr1 as [| e tr1 IH]; simpl; auto.
  destruct e; simpl; rewrite ?IH; reflexivity.
Qed.

Lemma reported_print_entries (es : list MbimPhonebookEntry) :
  reported (map print_entry es) = [].
Proof. induction es; simpl; auto. Qed.

Lemma resource_print_entries (es : list MbimPhonebookEntry) :
  filter is_resource_event (map print_entry es) = [].
Proof. induction es; simpl; auto. Qed.

(** Collects the events emitted one by one into a single [add_events]. *)
Ltac gather :=
  repeat rewrite add_event_one;
  repeat rewrite add_events_events;
  repeat rewrite <- app_assoc;
  cbn [app].

(** ** context_free and shutdown *)

Lemma context_free_release (context : option Context) (w : World) :
  context_free context w = Ret tt (add_events (release context) w).
Proof.
  destruct context as [[[d |] [c |]] |];
    cbv [context_free g_object_unref bind emit ret release]; cbn; gather;
    rewrite ?add_events_nil; reflexivity.
Qed.

Lemma shutdown_finalized (b : bool) (w : World) :
  shutdown b w = Ret tt (add_events (finalized (ctx w) b) w).
Proof.
  unfold shutdown, bind, get. rewrite context_free_release.
  unfold emit, finalized. now rewrite add_event_events.
Qed.

Lemma shutdown_after (evs : list Event) (b : bool) (w : World) :
  shutdown b (add_events evs w)
  = Ret tt (add_events (evs ++ finalized (ctx w) b) w).
Proof.
  rewrite shutdown_finalized, ctx_add_events. now rewrite add_events_events.
Qed.

(** ** The loop of the read callback *)

Lemma print_entries_from_app (es pre : list MbimPhonebookEntry) (w : World) :
  print_entries_from (pre ++ es) (List.length pre) (List.length es) w
  = Ret tt (add_events (map print_entry es) w).
Proof.
  revert pre w. induction es as [| e es IH]; intros pre w; simpl.
  - now rewrite add_events_nil.
  - rewrite nth_error_app2 by lia. rewrite Nat.sub_diag. simpl.
    unfold bind, emit.
    replace (pre ++ e :: es) with ((pre ++ [e]) ++ es)
      by (rewrite <- app_assoc; reflexivity).
    replace (S (List.length pre)) with (List.length (pre ++ [e]))
      by (rewrite length_app; simpl; lia).
    rewrite IH. rewrite add_event_one, add_events_events. reflexivity.
Qed.

Lemma print_entries_all (es : list MbimPhonebookEntry) (w : World) :
  print_entries_from es 0 (List.length es) w
  = Ret tt (add_events (map print_entry es) w).
Proof. exact (print_entries_from_app es [] w). Qed.

Lemma reported_finalized (context : option Context) (b : bool) :
  reported (finalized context b) = [b].
Proof. destruct context as [[[d |] [c |]] |]; reflexivity. Qed.

Lemma submitted_finalized (context : option Context) (b : bool) :
  submitted (finalized context b) = [].
Proof. destruct context as [[[d |] [c |]] |]; reflexivity. Qed.

(** ** The completion callbacks *)

Section ResolverProperties.

Context {codec : Codec}.

Lemma invoke_resolution (callback : GAsyncReadyCallback) (d : gpointer)
      (res : GAsyncResult) (w : World) :
  invoke callback d res w
  = Ret tt (add_events (resolution (ctx w) (outcome_of callback res)) w).
Proof.
  destruct res as [e | response].
  - destruct callback;
      cbv [invoke query_phonebook_configuration_ready query_phonebook_read_ready
           set_phonebook_delete_ready set_phonebook_write_ready
           mbim_device_command_finish outcome_of decode];
      cbv [bind emit]; gather; now rewrite shutdown_after.
  - destruct callback;
      cbv [invoke query_phonebook_configuration_ready query_phonebook_read_ready
           set_phonebook_delete_ready set_phonebook_write_ready
           mbim_device_command_finish outcome_of decode].
    + destruct (mbim_message_phonebook_configuration_response_parse response)
        as [e | [[[[state n] u] mn] mx]];
        cbv [bind emit]; gather; rewrite shutdown_after;
        [ reflexivity | ].
      unfold resolution, formatter, discard, VALIDATE_UNKNOWN.
      destruct (mbim_phonebook_state_get_string state); reflexivity.
    + destruct (mbim_message_phonebook_read_response_parse response)
        as [e | [n es]] eqn:Hparse;
        cbv [bind emit]; gather; [ now rewrite shutdown_after | ].
      apply read_response_entry_count in Hparse. subst n.
      rewrite Nat2Z.id, print_entries_all.
      gather. rewrite shutdown_after. cbn. now rewrite <- app_assoc.
    + destruct (mbim_message_phonebook_delete_response_parse response)
        as [e | ack];
        cbv [bind emit]; gather; now rewrite shutdown_after.
    + destruct (mbim_message_phonebook_write_response_parse response)
        as [e | ack];
        cbv [bind emit]; gather; now rewrite shutdown_after.
Qed.

Lemma reported_formatter (payload : Payload) :
  reported (formatter payload ++ discard payload) = [].
Proof.
  destruct payload as [[[[[state n] u] mn] mx] | n es | | ]; simpl; auto.
  rewrite reported_app, reported_print_entries. reflexivity.
Qed.

Lemma reported_resolution (context : option Context) (o : OperationOutcome) :
  reported (resolution context o) = [succeeded o].
Proof.
  destruct o as [payload | text | text]; unfold resolution.
  - rewrite app_assoc, reported_app, reported_formatter, reported_finalized.
    reflexivity.
  - simpl. now rewrite reported_finalized.
  - simpl. now rewrite reported_finalized.
Qed.

(** C1. Whatever the transport delivers to whichever of the four
    callbacks, the callback returns after emitting exactly the events of
    [resolution] for the outcome: on a transport failure the error is
    printed and finalization follows with false; on a response that does
    not parse, the parse error is printed and finalization follows with
    false; on a parsed response the payload is printed by the formatter and
    finalization follows with true.  One outcome is reported to
    [mbimcli_async_operation_done], as the last event, and it tells whether
    the outcome is a success. *)
Theorem completion_resolves_outcome (callback : GAsyncReadyCallback)
        (d : gpointer) (res : GAsyncResult) (w : World) :
  let o := outcome_of callback res in
  invoke callback d res w = Ret tt (add_events (resolution (ctx w) o) w)
  /\ reported (resolution (ctx w) o) = [succeeded o]
  /\ exists evs,
       resolution (ctx w) o = evs ++ [EvAsyncOperationDone (succeeded o)].
Proof.
  intros o. split; [apply invoke_resolution |].
  split; [apply reported_resolution |].
  destruct o as [payload | text | text]; unfold resolution, finalized; simpl.
  - exists (formatter payload ++ discard payload ++ release (ctx w)).
    now rewrite <- !app_assoc.
  - eexists (_ :: _ :: release (ctx w)). reflexivity.
  - eexists (_ :: _ :: release (ctx w)). reflexivity.
Qed.

End ResolverProperties.

(** ** The option check *)

Lemma counted_actions (o : Options) :
  Z.b2z (phonebook_configuration_flag o) +
  notnot (phonebook_read_index o) +
  Z.b2z (phonebook_read_all_flag o) +
  notnot_ptr (phonebook_write_str o) +
  notnot_ptr (phonebook_entry_update_str o) +
  notnot (phonebook_delete_index o) +
  Z.b2z (phonebook_delete_all_flag o)
  = Z.of_nat (count_set o).
Proof.
  destruct o as [cfg ri ra ws us di da].
  unfold count_set, indicators, notnot, is_set_int; simpl.
  destruct cfg, (ri =? 0), ra, ws, us, (di =? 0), da; reflexivity.
Qed.

Lemma options_enabled_first (w : World) :
  checked w = false ->
  mbimcli_phonebook_options_enabled w
  = let n := Z.of_nat (count_set (options w)) in
    if 1 <? n then
      Exit EXIT_FAILURE
           (add_event
              (EvPrinterr ("error: too many phonebook actions requested" ++ nl) [])
              (set_n_actions n w))
    else Ret (negb (n =? 0)) (set_checked true (set_n_actions n w)).
Proof.
  intros Hc. unfold mbimcli_phonebook_options_enabled, bind, get.
  rewrite Hc, counted_actions. cbv zeta.
  unfold modify, emit, exit, ret.
  destruct (1 <? Z.of_nat (count_set (options w))); reflexivity.
Qed.

Lemma options_enabled_cached (w : World) :
  checked w = true ->
  mbimcli_phonebook_options_enabled w = Ret (negb (n_actions w =? 0)) w.
Proof.
  intros Hc. unfold mbimcli_phonebook_options_enabled, bind, get.
  now rewrite Hc.
Qed.

(** C2. From the state in which the check has not yet run, whenever more
    than one of the action indicators is set, the check prints the error
    and ends the process with the non-zero status EXIT_FAILURE; nothing is
    handed to the transport, and whatever would follow the check in the
    caller does not run. *)
Theorem too_many_actions_exit (w : World) :
  checked w = false ->
  (1 < count_set (options w))%nat ->
  exists w',
    mbimcli_phonebook_options_enabled w = Exit EXIT_FAILURE w'
    /\ EXIT_FAILURE <> 0
    /\ trace w' = trace w ++
         [EvPrinterr ("error: too many phonebook actions requested" ++ nl) []]
    /\ submitted (trace w') = submitted (trace w)
    /\ forall (B : Type) (k : bool -> M B),
         (enabled <- mbimcli_phonebook_options_enabled ;; k enabled) w
         = Exit EXIT_FAILURE w'.
Proof.
  intros Hc Hn. eexists. rewrite (options_enabled_first w Hc). cbv zeta.
  assert (H1 : (1 <? Z.of_nat (count_set (options w))) = true)
    by (apply Z.ltb_lt; lia).
  rewrite H1. split; [reflexivity |].
  split; [discriminate |]. split; [reflexivity |].
  split.
  - simpl. rewrite submitted_app. simpl. now rewrite app_nil_r.
  - intros B k. unfold bind. rewrite (options_enabled_first w Hc). cbv zeta.
    now rewrite H1.
Qed.

Lemma too_many_actions_exit_witness :
  exists w',
    mbimcli_phonebook_options_enabled (startup two_actions clean_block)
    = Exit EXIT_FAILURE w'
    /\ EXIT_FAILURE <> 0
    /\ trace w' = trace (startup two_actions clean_block) ++
         [EvPrinterr ("error: too many phonebook actions requested" ++ nl) []]
    /\ submitted (trace w') = submitted (trace (startup two_actions clean_block))
    /\ forall (B : Type) (k : bool -> M B),
         (enabled <- mbimcli_phonebook_options_enabled ;; k enabled)
           (startup two_actions clean_block)
         = Exit EXIT_FAILURE w'.
Proof.
  apply (too_many_actions_exit (startup two_actions clean_block)).
  - reflexivity.
  - vm_compute. lia.
Defined.

(** C8. Once the check has returned, a second call returns the same
    answer and leaves the world as it is: it prints nothing and does not
    end the process.  The answer comes from the cached count and not from
    the option variables, since it is the same whatever these hold at the
    second call. *)
Theorem options_enabled_idempotent (w w1 : World) (enabled : bool) :
  mbimcli_phonebook_options_enabled w = Ret enabled w1 ->
  mbimcli_phonebook_options_enabled w1 = Ret enabled w1
  /\ forall o' : Options,
       mbimcli_phonebook_options_enabled (set_options o' w1)
       = Ret enabled (set_options o' w1).
Proof.
  intros Hfirst.
  assert (Hcache : checked w1 = true /\ enabled = negb (n_actions w1 =? 0)).
  { destruct (checked w) eqn:Hc.
    - rewrite (options_enabled_cached w Hc) in Hfirst.
      inversion Hfirst; subst. auto.
    - rewrite (options_enabled_first w Hc) in Hfirst. cbv zeta in Hfirst.
      destruct (1 <? Z.of_nat (count_set (options w))); [discriminate |].
      inversion Hfirst; subst. auto. }
  destruct Hcache as [Hc Hen]. split.
  - rewrite (options_enabled_cached w1 Hc). now rewrite Hen.
  - intros o'. rewrite options_enabled_cached by exact Hc.
    simpl. now rewrite Hen.
Qed.

Lemma options_enabled_idempotent_witness :
  let w := startup (cli_options ReadAll) clean_block in
  let w1 := set_checked true (set_n_actions 1 w) in
  mbimcli_phonebook_options_enabled w1 = Ret true w1
  /\ forall o' : Options,
       mbimcli_phonebook_options_enabled (set_options o' w1)
       = Ret true (set_options o' w1).
Proof.
  intros w w1.
  apply (options_enabled_idempotent w (w1 := w1) (enabled := true)).
  reflexivity.
Defined.

Section NoAction.

Context {codec : Codec}.

(** C10. An invocation whose only option is a read or a delete by index
    with index 0 leaves the option variables as if no option had been
    given; the check counts no action and answers FALSE, and a run started
    all the same hands nothing to the transport. *)
Theorem zero_index_is_no_action (a : Action) (junk : Context)
        (dev : Handle) (canc : gpointer) (res : GAsyncResult) :
  a = ReadOne 0 \/ a = DeleteOne 0 ->
  let w := startup (cli_options a) junk in
  cli_options a = no_options
  /\ count_set (cli_options a) = 0%nat
  /\ mbimcli_phonebook_options_enabled w = Ret false (set_checked true w)
  /\ exists w',
       run_to_completion dev canc res (set_checked true w) = Ret tt w'
       /\ submitted (trace w') = [].
Proof.
  intros [-> | ->]; cbv zeta; (split; [reflexivity |]);
    (split; [reflexivity |]); (split; [reflexivity |]);
    destruct canc as [c |]; eexists; split; reflexivity.
Qed.

End NoAction.

Lemma zero_index_is_no_action_witness :
  let w := startup (cli_options (ReadOne 0)) clean_block in
  cli_options (ReadOne 0) = no_options
  /\ count_set (cli_options (ReadOne 0)) = 0%nat
  /\ mbimcli_phonebook_options_enabled w = Ret false (set_checked true w)
  /\ exists w',
       run_to_completion 1%positive (Some 2%positive) (inr DemoAcknowledgement)
                         (set_checked true w) = Ret tt w'
       /\ submitted (trace w') = [].
Proof.
  apply (zero_index_is_no_action (codec := demo_codec) (a := ReadOne 0)).
  left. reflexivity.
Defined.

(** ** The input parser *)

Lemma split_fields_length (s : string) :
  List.length (split_fields s) = S (count_commas s).
Proof.
  induction s as [| c s IH]; simpl; auto.
  destruct (Ascii.eqb c comma); simpl.
  - now rewrite IH.
  - destruct (split_fields s) as [| f fs]; simpl in *; [discriminate | exact IH].
Qed.

(** The number of fields of a non-empty text is one more than the number
    of its commas; the empty text has no field. *)
Lemma g_strsplit_length (str : string) :
  List.length (g_strsplit str)
  = match str with EmptyString => 0%nat | _ => S (count_commas str) end.
Proof.
  destruct str as [| c s]; [reflexivity |].
  unfold g_strsplit. apply split_fields_length.
Qed.

Lemma input_parse_cases (n_expected : nat) (str : string) (w : World) :
  n_expected = 2%nat \/ n_expected = 3%nat ->
  phonebook_write_input_parse n_expected str w
  = let split := g_strsplit str in
    if Nat.ltb n_expected (List.length split) then
      Ret None (add_events [too_many_arguments; EvStrfreev] w)
    else if Nat.ltb (List.length split) n_expected then
      Ret None (add_events [missing_arguments; EvStrfreev] w)
    else
      Ret (Some (nth_error split 0, nth_error split 1, nth_error split 2))
          (add_events [EvFree] w).
Proof.
  intros [-> | ->]; unfold phonebook_write_input_parse, g_strv_length, strv_nth;
    cbv [g_assert Nat.eqb orb bind ret emit]; cbv zeta;
    destruct (Nat.ltb _ (List.length (g_strsplit str)));
    try destruct (Nat.ltb (List.length (g_strsplit str)) _);
    gather; reflexivity.
Qed.

(** C4. For an expected count of 2 (write) or 3 (update) and any text, the
    parser returns TRUE with the fields exactly when the text splits at its
    commas into the expected number of fields; with fewer fields it prints
    the missing-arguments error and returns FALSE, with more it prints the
    too-many-arguments error and returns FALSE.  No field is filled in by
    default. *)
Theorem input_parse_exact_count (n_expected : nat) (str : string) (w : World) :
  n_expected = 2%nat \/ n_expected = 3%nat ->
  let split := g_strsplit str in
  (List.length split = n_expected ->
     phonebook_write_input_parse n_expected str w
     = Ret (Some (nth_error split 0, nth_error split 1, nth_error split 2))
           (add_events [EvFree] w))
  /\ ((List.length split < n_expected)%nat ->
        phonebook_write_input_parse n_expected str w
        = Ret None (add_events [missing_arguments; EvStrfreev] w))
  /\ ((n_expected < List.length split)%nat ->
        phonebook_write_input_parse n_expected str w
        = Ret None (add_events [too_many_arguments; EvStrfreev] w))
  /\ ((exists fields w',
          phonebook_write_input_parse n_expected str w = Ret (Some fields) w')
      <-> List.length split = n_expected).
Proof.
  intros Hn split.
  pose proof (input_parse_cases str w Hn) as Hcases. cbv zeta in Hcases.
  fold split in Hcases.
  destruct (Nat.ltb_spec n_expected (List.length split)) as [Hgt | Hle].
  - repeat split; try (intros; lia); try exact (fun _ => Hcases).
    intros (fields & w' & Hp). rewrite Hcases in Hp. discriminate.
  - destruct (Nat.ltb_spec (List.length split) n_expected) as [Hlt | Hge].
    + repeat split; try (intros; lia); try exact (fun _ => Hcases).
      intros (fields & w' & Hp). rewrite Hcases in Hp. discriminate.
    + repeat split; try (intros; lia); try exact (fun _ => Hcases).
      intros _. eauto.
Qed.

Lemma input_parse_exact_count_witness :
  let split := g_strsplit "A,B,C,D" in
  (List.length split = 2%nat ->
     phonebook_write_input_parse 2 "A,B,C,D" (startup no_options clean_block)
     = Ret (Some (nth_error split 0, nth_error split 1, nth_error split 2))
           (add_events [EvFree] (startup no_options clean_block)))
  /\ ((List.length split < 2)%nat ->
        phonebook_write_input_parse 2 "A,B,C,D" (startup no_options clean_block)
        = Ret None (add_events [missing_arguments; EvStrfreev]
                               (startup no_options clean_block)))
  /\ ((2 < List.length split)%nat ->
        phonebook_write_input_parse 2 "A,B,C,D" (startup no_options clean_block)
        = Ret None (add_events [too_many_arguments; EvStrfreev]
                               (startup no_options clean_block)))
  /\ ((exists fields w',
          phonebook_write_input_parse 2 "A,B,C,D" (startup no_options clean_block)
          = Ret (Some fields) w')
      <-> List.length split = 2%nat).
Proof.
  apply (input_parse_exact_count (n_expected := 2) "A,B,C,D"
                                 (startup no_options clean_block)).
  left. reflexivity.
Defined.

(** The two examples of the testable properties, run. *)
Example parse_only_name :
  phonebook_write_input_parse 2 "OnlyName" (startup no_options clean_block)
  = Ret None (add_events [missing_arguments; EvStrfreev]
                         (startup no_options clean_block)).
Proof. reflexivity. Qed.

Example parse_four_fields :
  phonebook_write_input_parse 2 "A,B,C,D" (startup no_options clean_block)
  = Ret None (add_events [too_many_arguments; EvStrfreev]
                         (startup no_options clean_block)).
Proof. reflexivity. Qed.

Example parse_name_number :
  phonebook_write_input_parse 2 "Name,Number" (startup no_options clean_block)
  = Ret (Some (Some "Name", Some "Number", None))
        (add_events [EvFree] (startup no_options clean_block)).
Proof. reflexivity. Qed.

Example parse_name_number_index :
  phonebook_write_input_parse 3 "Name,Number,Index" (startup no_options clean_block)
  = Ret (Some (Some "Name", Some "Number", Some "Index"))
        (add_events [EvFree] (startup no_options clean_block)).
Proof. reflexivity. Qed.

(** ** Splitting and the request builder *)

Lemma split_fields_comma_free (f : string) :
  comma_free f = true -> split_fields f = [f].
Proof.
  induction f as [| c f IH]; simpl; auto.
  destruct (Ascii.eqb c comma); simpl; [discriminate |].
  intros H. now rewrite (IH H).
Qed.

Lemma split_fields_join (f rest : string) :
  comma_free f = true ->
  split_fields (f ++ String comma rest) = f :: split_fields rest.
Proof.
  induction f as [| c f IH]; simpl; auto.
  destruct (Ascii.eqb c comma); simpl; [discriminate |].
  intros H. now rewrite (IH H).
Qed.

Lemma g_strsplit_join (f rest : string) :
  comma_free f = true ->
  g_strsplit (f ++ String comma rest) = f :: split_fields rest.
Proof.
  intros H. rewrite <- (split_fields_join f rest H).
  destruct f; reflexivity.
Qed.

Lemma g_strsplit_join2 (a b : string) :
  comma_free a = true -> comma_free b = true ->
  g_strsplit (join2 a b) = [a; b].
Proof.
  intros Ha Hb. unfold join2.
  now rewrite (g_strsplit_join a b Ha), (split_fields_comma_free b Hb).
Qed.

Lemma g_strsplit_join3 (a b c : string) :
  comma_free a = true -> comma_free b = true -> comma_free c = true ->
  g_strsplit (join3 a b c) = [a; b; c].
Proof.
  intros Ha Hb Hc. unfold join3.
  rewrite (g_strsplit_join a _ Ha), (split_fields_join b c Hb).
  now rewrite (split_fields_comma_free c Hc).
Qed.

(** One step of a run: the monad is unfolded and the variables are read. *)
Ltac run_step :=
  cbv [bind emit get modify ret mbim_device_command atoi_ptr];
  cbn [options ctx trace set_options set_ctx add_event add_events cli_options
       phonebook_configuration_flag phonebook_read_index
       phonebook_read_all_flag phonebook_write_str phonebook_entry_update_str
       phonebook_delete_index phonebook_delete_all_flag device cancellable
       negb Z.eqb nth_error List.length Nat.ltb Nat.leb].

(** The commands of the trace of a run. *)
Ltac submitted_trace :=
  cbn [trace add_event add_events set_ctx set_options];
  repeat rewrite submitted_app; cbn [submitted app];
  repeat rewrite app_nil_r; try reflexivity.

(** The update branch on a text of three comma-free fields. *)
Lemma run_update_submits (name number index : string) (dev c : Handle)
      (w : World) :
  comma_free name = true -> comma_free number = true ->
  comma_free index = true ->
  exists w',
    mbimcli_phonebook_run dev (Some c)
      (set_options (cli_options (UpdateEntry name number index)) w)
    = Ret tt w'
    /\ submitted (trace w')
       = submitted (trace w) ++
         [(Some dev,
           mbim_message_phonebook_write_set_new
             MBIM_PHONEBOOK_WRITE_FLAG_SAVE_INDEX (atoi index)
             (Some number) (Some name),
           10, Some c, cb_set_phonebook_write_ready)].
Proof.
  intros Hn Hm Hi. unfold mbimcli_phonebook_run; run_step.
  rewrite input_parse_cases by auto.
  rewrite (g_strsplit_join3 _ _ _ Hn Hm Hi). run_step.
  eexists; split; [reflexivity | submitted_trace].
Qed.

(** C3. For every selectable action, a run started with the option of that
    action hands the transport exactly one command: the request of the
    action in the table of the request builder (no parameter for the
    configuration query; the by-index flag and the given index, or the all
    flag and index 0, for a read and for a delete; the save-unused flag,
    index 0, number and name for a write; the save-index flag, the converted
    index, number and name for an update), with timeout 10, the session's
    cancellable and a single callback. *)
Theorem request_builder_table (a : Action) (dev c : Handle) (w : World) :
  selectable a = true ->
  exists w',
    mbimcli_phonebook_run dev (Some c) (set_options (cli_options a) w)
    = Ret tt w'
    /\ submitted (trace w')
       = submitted (trace w) ++
         [(Some dev, request_table a, 10, Some c, completion_callback a)].
Proof.
  intros Hsel.
  destruct a as [| index | | name number | name number index | index |];
    simpl in Hsel.
  5: { apply andb_prop in Hsel. destruct Hsel as [Hsel Hi].
       apply andb_prop in Hsel. destruct Hsel as [Hn Hm].
       exact (@run_update_submits name number index dev c w Hn Hm Hi). }
  all: unfold mbimcli_phonebook_run; run_step.
  - eexists; split; [reflexivity | submitted_trace].
  - unfold is_set_int in Hsel. rewrite Hsel. run_step.
    eexists; split; [reflexivity | submitted_trace].
  - eexists; split; [reflexivity | submitted_trace].
  - apply andb_prop in Hsel. destruct Hsel as [Hn Hm].
    rewrite input_parse_cases by auto. rewrite (g_strsplit_join2 _ _ Hn Hm).
    run_step.
    eexists; split; [reflexivity | submitted_trace].
  - unfold is_set_int in Hsel. rewrite Hsel. run_step.
    eexists; split; [reflexivity | submitted_trace].
  - eexists; split; [reflexivity | submitted_trace].
Qed.

Lemma request_builder_table_witness :
  exists w',
    mbimcli_phonebook_run the_device (Some the_cancellable)
      (set_options (cli_options (UpdateEntry "Alice" "555-1000" "3"))
                   (startup no_options clean_block))
    = Ret tt w'
    /\ submitted (trace w')
       = submitted (trace (startup no_options clean_block)) ++
         [(Some the_device,
           request_table (UpdateEntry "Alice" "555-1000" "3"), 10,
           Some the_cancellable,
           completion_callback (UpdateEntry "Alice" "555-1000" "3"))].
Proof.
  apply (@request_builder_table (UpdateEntry "Alice" "555-1000" "3")
           the_device the_cancellable (startup no_options clean_block)).
  reflexivity.
Defined.

(** The table on the seven kinds of action, run. *)
Example request_table_samples :
  map (fun a =>
         match mbimcli_phonebook_run the_device (Some the_cancellable)
                 (startup (cli_options a) clean_block) with
         | Ret _ w' => submitted (trace w')
         | _ => []
         end)
      [QueryConfiguration; ReadOne 4; ReadAll; DeleteOne 4; DeleteAll;
       Write "Alice" "555-1000"; UpdateEntry "Alice" "555-1000" "3"]
  = map (fun r => [(Some the_device, r, 10, Some the_cancellable,
                    match r with
                    | mbim_message_phonebook_configuration_query_new =>
                        cb_query_phonebook_configuration_ready
                    | mbim_message_phonebook_read_query_new _ _ =>
                        cb_query_phonebook_read_ready
                    | mbim_message_phonebook_delete_set_new _ _ =>
                        cb_set_phonebook_delete_ready
                    | mbim_message_phonebook_write_set_new _ _ _ _ =>
                        cb_set_phonebook_write_ready
                    end)])
      [mbim_message_phonebook_configuration_query_new;
       mbim_message_phonebook_read_query_new MBIM_PHONEBOOK_FLAG_INDEX 4;
       mbim_message_phonebook_read_query_new MBIM_PHONEBOOK_FLAG_ALL 0;
       mbim_message_phonebook_delete_set_new MBIM_PHONEBOOK_FLAG_INDEX 4;
       mbim_message_phonebook_delete_set_new MBIM_PHONEBOOK_FLAG_ALL 0;
       mbim_message_phonebook_write_set_new
         MBIM_PHONEBOOK_WRITE_FLAG_SAVE_UNUSED 0 (Some "555-1000") (Some "Alice");
       mbim_message_phonebook_write_set_new
         MBIM_PHONEBOOK_WRITE_FLAG_SAVE_INDEX 3 (Some "555-1000") (Some "Alice")].
Proof. vm_compute. reflexivity. Qed.

(** With a NULL cancellable the field of the context is never written:
    the command and, later, [context_free] read what the block held. *)
Lemma run_null_cancellable (dev : Handle) (w : World) :
  exists w',
    mbimcli_phonebook_run dev None
      (set_options (cli_options QueryConfiguration) w) = Ret tt w'
    /\ ctx w' = Some {| device := Some dev;
                        cancellable := cancellable (slice_block w) |}
    /\ submitted (trace w')
       = submitted (trace w) ++
         [(Some dev, mbim_message_phonebook_configuration_query_new, 10,
           cancellable (slice_block w),
           cb_query_phonebook_configuration_ready)].
Proof.
  unfold mbimcli_phonebook_run; run_step.
  eexists; split; [reflexivity |]. split; [reflexivity | submitted_trace].
Qed.

(** ** The index of an update *)

Lemma digits_value_no_digit (s : string) :
  match s with String c _ => is_digit c | EmptyString => false end = false ->
  digits_value 0 s = 0.
Proof.
  destruct s as [| c s]; simpl; auto.
  unfold is_digit. destruct (digit_of c); [discriminate | reflexivity].
Qed.

Lemma atoi_no_leading_digit (s : string) :
  leading_digit s = false -> atoi s = 0.
Proof.
  unfold leading_digit, atoi, strtol10.
  destruct (take_sign (skip_spaces s)) as [neg rest]. simpl.
  intros H. rewrite (digits_value_no_digit rest H).
  destruct neg; reflexivity.
Qed.

(** C5, as amended.  For an update whose third field does not start, after
    white space and an optional sign, with a decimal digit, the conversion
    gives 0 and the write request is built with the save-index flag and
    index 0; the field is not validated and the run does not fail. *)
Theorem update_without_leading_digit (name number index : string)
        (dev c : Handle) (w : World) :
  comma_free name = true -> comma_free number = true ->
  comma_free index = true ->
  leading_digit index = false ->
  exists w',
    mbimcli_phonebook_run dev (Some c)
      (set_options (cli_options (UpdateEntry name number index)) w)
    = Ret tt w'
    /\ submitted (trace w')
       = submitted (trace w) ++
         [(Some dev,
           mbim_message_phonebook_write_set_new
             MBIM_PHONEBOOK_WRITE_FLAG_SAVE_INDEX 0 (Some number) (Some name),
           10, Some c, cb_set_phonebook_write_ready)].
Proof.
  intros Hn Hm Hi Hlead.
  destruct (@run_update_submits name number index dev c w Hn Hm Hi) as (w' & Hrun & Hsub).
  exists w'. split; [exact Hrun |].
  rewrite Hsub. now rewrite (atoi_no_leading_digit index Hlead).
Qed.

Lemma update_without_leading_digit_witness :
  exists w',
    mbimcli_phonebook_run the_device (Some the_cancellable)
      (set_options (cli_options (UpdateEntry "Alice" "555-1000" "abc"))
                   (startup no_options clean_block))
    = Ret tt w'
    /\ submitted (trace w')
       = submitted (trace (startup no_options clean_block)) ++
         [(Some the_device,
           mbim_message_phonebook_write_set_new
             MBIM_PHONEBOOK_WRITE_FLAG_SAVE_INDEX 0
             (Some "555-1000") (Some "Alice"),
           10, Some the_cancellable, cb_set_phonebook_write_ready)].
Proof.
  apply (@update_without_leading_digit "Alice" "555-1000" "abc"
           the_device the_cancellable (startup no_options clean_block));
    reflexivity.
Defined.

(** C5, as stated, fails: a third field that is not a numeral but starts
    with digits is converted to the value of these digits.  With the field
    [12abc] the write request carries index 12. *)
Lemma update_numeric_prefix_counterexample :
  ~ (forall index : string,
       comma_free index = true -> numeric index = false ->
       forall w',
         mbimcli_phonebook_run 1%positive (Some 2%positive)
           (startup (cli_options (UpdateEntry "Alice" "555-1000" index))
                    clean_block)
         = Ret tt w' ->
         written_indexes (trace w') = [0]).
Proof.
  intros H.
  specialize (H "12abc" eq_refl eq_refl _ eq_refl).
  vm_compute in H. discriminate H.
Qed.

Example atoi_samples :
  atoi "12abc" = 12 /\ atoi "abc" = 0 /\ atoi "  -7" = -7 /\ atoi "+42" = 42
  /\ atoi "1.5" = 1 /\ atoi "0x10" = 0.
Proof. vm_compute. repeat split. Qed.

Lemma print_events_entries (es : list MbimPhonebookEntry) :
  filter is_print_event (map print_entry es) = map print_entry es.
Proof. induction es as [| e es IH]; simpl; [reflexivity | now rewrite IH]. Qed.

Section Formatting.
Context {codec : Codec}.

(** C6. When the configuration response parses and the label lookup gives
    NULL for its state, the callback returns normally after one [g_print]
    whose state argument is the word unknown and whose other arguments are
    the number of entries, the used entries, the max number length and the
    max name length; finalization follows with true. *)
Theorem unknown_state_label (response : MbimMessage)
        (state number_of_entries used_entries max_number_length max_name : Z)
        (d : gpointer) (w : World) :
  mbim_message_phonebook_configuration_response_parse response
  = inr (state, number_of_entries, used_entries, max_number_length, max_name) ->
  mbim_phonebook_state_get_string state = None ->
  query_phonebook_configuration_ready d (inr response) w
  = Ret tt
        (add_events
           ([EvPrint configuration_format
                     [ArgStr "unknown"; ArgInt number_of_entries;
                      ArgInt used_entries; ArgInt max_number_length;
                      ArgInt max_name];
             EvResponseUnref] ++ finalized (ctx w) true)
           w).
Proof.
  intros Hparse Hlabel.
  change (query_phonebook_configuration_ready d (inr response) w)
    with (invoke cb_query_phonebook_configuration_ready d (inr response) w).
  rewrite invoke_resolution.
  unfold outcome_of, decode. rewrite Hparse.
  unfold resolution, formatter, discard. now rewrite Hlabel.
Qed.

(** C7. When the read response parses, the callback prints the heading,
    then the entry count, then one [g_print] per entry, in the order of the
    array returned by the parser, with the index, the number and the name
    of that entry as arguments; nothing else is printed. *)
Theorem read_entries_in_order (response : MbimMessage) (entry_count : Z)
        (entries : list MbimPhonebookEntry) (d : gpointer) (w : World) :
  mbim_message_phonebook_read_response_parse response
  = inr (entry_count, entries) ->
  let lines :=
    EvPrint ("Successfully read phonebook entry/entries" ++ nl) [] ::
    EvPrint (tab ++ "Phonebook entries count: %d" ++ nl) [ArgInt entry_count] ::
    map (fun e => EvPrint entry_format
                          [ArgInt (entry_index e); ArgStr (number e);
                           ArgStr (name e)])
        entries in
  let evs := lines ++ [EvEntryArrayFree; EvResponseUnref] ++ finalized (ctx w) true in
  query_phonebook_read_ready d (inr response) w = Ret tt (add_events evs w)
  /\ filter is_print_event evs = lines.
Proof.
  intros Hparse lines evs.
  split.
  - change (query_phonebook_read_ready d (inr response) w)
      with (invoke cb_query_phonebook_read_ready d (inr response) w).
    rewrite invoke_resolution.
    unfold outcome_of, decode. rewrite Hparse.
    unfold resolution, formatter, discard, evs, lines. reflexivity.
  - unfold evs. rewrite filter_app.
    assert (Hl : filter is_print_event lines = lines).
    { unfold lines. simpl. do 2 f_equal. apply print_events_entries. }
    rewrite Hl.
    assert (Hr : filter is_print_event
                        ([EvEntryArrayFree; EvResponseUnref] ++ finalized (ctx w) true) = []).
    { destruct (ctx w) as [[[dv |] [cn |]] |]; reflexivity. }
    rewrite Hr. now rewrite app_nil_r.
Qed.

End Formatting.

Lemma unknown_state_label_witness :
  query_phonebook_configuration_ready
    (Some the_device) (inr (DemoConfiguration odd_configuration))
    (startup (cli_options QueryConfiguration) clean_block)
  = Ret tt
        (add_events
           ([EvPrint configuration_format
                     [ArgStr "unknown"; ArgInt 250; ArgInt 12; ArgInt 40;
                      ArgInt 20];
             EvResponseUnref] ++
            finalized (ctx (startup (cli_options QueryConfiguration) clean_block))
                      true)
           (startup (cli_options QueryConfiguration) clean_block)).
Proof.
  apply (@unknown_state_label demo_codec (DemoConfiguration odd_configuration)
           7 250 12 40 20 (Some the_device)
           (startup (cli_options QueryConfiguration) clean_block));
    reflexivity.
Defined.

Lemma read_entries_in_order_witness :
  let w := startup (cli_options ReadAll) clean_block in
  let lines :=
    EvPrint ("Successfully read phonebook entry/entries" ++ nl) [] ::
    EvPrint (tab ++ "Phonebook entries count: %d" ++ nl) [ArgInt 2] ::
    map (fun e => EvPrint entry_format
                          [ArgInt (entry_index e); ArgStr (number e);
                           ArgStr (name e)])
        [alice; bob] in
  let evs := lines ++ [EvEntryArrayFree; EvResponseUnref] ++ finalized (ctx w) true in
  query_phonebook_read_ready (Some the_device) (inr (DemoEntries [alice; bob])) w
  = Ret tt (add_events evs w)
  /\ filter is_print_event evs = lines.
Proof.
  apply (@read_entries_in_order demo_codec (DemoEntries [alice; bob]) 2
           [alice; bob] (Some the_device)
           (startup (cli_options ReadAll) clean_block)).
  reflexivity.
Defined.

(** The read example, printed: both entries, Alice before Bob. *)
Example read_alice_then_bob :
  match query_phonebook_read_ready (Some the_device)
          (inr (DemoEntries [alice; bob]))
          (startup (cli_options ReadAll) clean_block) with
  | Ret _ w' => filter is_print_event (trace w')
  | _ => []
  end
  = [EvPrint ("Successfully read phonebook entry/entries" ++ nl) [];
     EvPrint (tab ++ "Phonebook entries count: %d" ++ nl) [ArgInt 2];
     EvPrint entry_format [ArgInt 1; ArgStr "555-1000"; ArgStr "Alice"];
     EvPrint entry_format [ArgInt 2; ArgStr "555-2000"; ArgStr "Bob"]].
Proof. vm_compute. reflexivity. Qed.

(** ** One run, from start to finalization *)

Ltac trace_eq :=
  cbn [trace add_event add_events set_ctx set_options];
  repeat rewrite <- app_assoc; cbn [app]; reflexivity.

Ltac submitted_case pre :=
  eexists; split; [reflexivity |]; split; [reflexivity |];
  left; exists pre; do 2 eexists; split; [trace_eq | split; reflexivity].

Ltac parse_failed_case :=
  eexists; split; [reflexivity |]; split; [reflexivity |];
  right; eexists [_; _; _]; split; [trace_eq | split; reflexivity].

Lemma run_outcomes (dev c : Handle) (w : World) :
  (0 < count_set (options w))%nat ->
  exists w',
    mbimcli_phonebook_run dev (Some c) w = Ret tt w'
    /\ ctx w' = Some {| device := Some dev; cancellable := Some c |}
    /\ ((exists pre req cb,
           trace w' = trace w ++
             [EvSliceNew; EvObjectRef dev; EvObjectRef c] ++ pre ++
             [EvDeviceCommand (Some dev) req 10 (Some c) cb; EvRequestUnref]
           /\ filter is_resource_event pre = []
           /\ submitted pre = [])
        \/ (exists pre,
              trace w' = trace w ++
                [EvSliceNew; EvObjectRef dev; EvObjectRef c] ++ pre ++
                [EvObjectUnref c; EvObjectUnref dev; EvSliceFree;
                 EvAsyncOperationDone false]
              /\ filter is_resource_event pre = []
              /\ submitted pre = [])).
Proof.
  destruct w as [o n ch cx blk tr].
  destruct o as [cfg ri ra ws us di da].
  unfold count_set, indicators, is_set_int. cbn [options phonebook_configuration_flag phonebook_read_index
       phonebook_read_all_flag phonebook_write_str phonebook_entry_update_str
       phonebook_delete_index phonebook_delete_all_flag].
  intros Hset. unfold mbimcli_phonebook_run. run_step.
  destruct cfg; [run_step; submitted_case [EvDebug "Asynchronously querying phonebook configurations..."] |].
  destruct (ri =? 0); cbn [negb];
    [| run_step; submitted_case [EvDebug "Asynchronously querying phonebook read..."]].
  destruct ra;
    [run_step; submitted_case [EvDebug "Asynchronously querying phonebook read all..."] |].
  destruct (di =? 0); cbn [negb];
    [| run_step; submitted_case [EvDebug "Asynchronously phonebook delete..."]].
  destruct da;
    [run_step; submitted_case [EvDebug "Asynchronously phonebook delete all..."] |].
  destruct ws as [write_str |].
  - rewrite input_parse_cases by auto. cbv zeta.
    destruct (g_strsplit write_str) as [| f1 [| f2 [| f3 l]]]; run_step;
      try (unfold shutdown, context_free, g_object_unref; run_step;
           parse_failed_case).
    submitted_case [EvDebug "Asynchronously writing phonebook..."; EvFree].
  - destruct us as [update_str |].
    + rewrite input_parse_cases by auto. cbv zeta.
      destruct (g_strsplit update_str) as [| f1 [| f2 [| f3 [| f4 l]]]];
        run_step;
        try (unfold shutdown, context_free, g_object_unref; run_step;
             parse_failed_case).
      submitted_case [EvDebug "Asynchronously updating phonebook entry..."; EvFree].
    + simpl in Hset. lia.
Qed.

Lemma reported_resource_events (tr : list Event) :
  reported (filter is_resource_event tr) = reported tr.
Proof.
  induction tr as [| e tr IH]; simpl; auto.
  destruct e; simpl; rewrite ?IH; reflexivity.
Qed.

Lemma resource_finalized (context : option Context) (b : bool) :
  filter is_resource_event (finalized context b) = finalized context b.
Proof. destruct context as [[[d |] [c |]] |]; reflexivity. Qed.

Section Lifecycle.
Context {codec : Codec}.

Lemma resource_resolution (context : option Context) (o : OperationOutcome) :
  filter is_resource_event (resolution context o)
  = finalized context (succeeded o).
Proof.
  destruct o as [payload | text | text]; unfold resolution.
  - rewrite !filter_app, resource_finalized.
    destruct payload as [[[[[state n] u] mn] mx] | n es | | ]; simpl; auto.
    now rewrite resource_print_entries.
  - simpl. apply resource_finalized.
  - simpl. apply resource_finalized.
Qed.

(** C9. Whenever some action is set, a run with a session token, followed
    by the completion of what it submitted, returns; of the events that
    take or give back a resource, it emits the allocation of the context,
    one reference on the device and one on the cancellable, then one
    release of each, the release of the context and a single report to
    [mbimcli_async_operation_done].  This covers the four ways out: a
    submitted command completed by a transport error, by a response that
    does not parse or by one that does, and an input that does not parse. *)
Theorem run_finalizes_once (dev c : Handle) (res : GAsyncResult) (w : World) :
  (0 < count_set (options w))%nat ->
  exists w' evs b,
    run_to_completion dev (Some c) res w = Ret tt w'
    /\ trace w' = trace w ++ evs
    /\ filter is_resource_event evs
       = [EvSliceNew; EvObjectRef dev; EvObjectRef c;
          EvObjectUnref c; EvObjectUnref dev; EvSliceFree;
          EvAsyncOperationDone b]
    /\ reported evs = [b].
Proof.
  intros Hset.
  destruct (run_outcomes dev c w Hset)
    as (w1 & Hrun & Hctx &
        [(pre & req & cb & Ht & Hq1 & Hq2) | (pre & Ht & Hq1 & Hq2)]).
  - unfold run_to_completion, bind, get. rewrite Hrun, Ht, skipn_length_app.
    rewrite !submitted_app, Hq2. cbn [submitted app complete_all].
    unfold bind. rewrite invoke_resolution. cbv [ret]. rewrite Hctx.
    exists (add_events (resolution (Some {| device := Some dev; cancellable := Some c |})
                                   (outcome_of cb res)) w1).
    exists (([EvSliceNew; EvObjectRef dev; EvObjectRef c] ++ pre ++
             [EvDeviceCommand (Some dev) req 10 (Some c) cb; EvRequestUnref]) ++
            resolution (Some {| device := Some dev; cancellable := Some c |})
                       (outcome_of cb res)).
    exists (succeeded (outcome_of cb res)).
    assert (Hres : filter is_resource_event
              (([EvSliceNew; EvObjectRef dev; EvObjectRef c] ++ pre ++
                [EvDeviceCommand (Some dev) req 10 (Some c) cb; EvRequestUnref]) ++
               resolution (Some {| device := Some dev; cancellable := Some c |})
                          (outcome_of cb res))
            = [EvSliceNew; EvObjectRef dev; EvObjectRef c;
               EvObjectUnref c; EvObjectUnref dev; EvSliceFree;
               EvAsyncOperationDone (succeeded (outcome_of cb res))]).
    { rewrite !filter_app, Hq1, resource_resolution. reflexivity. }
    split; [reflexivity |]. split.
    + cbn [trace add_events]. rewrite Ht. now rewrite <- !app_assoc.
    + split; [exact Hres |].
      rewrite <- reported_resource_events, Hres. reflexivity.
  - unfold run_to_completion, bind, get. rewrite Hrun, Ht, skipn_length_app.
    rewrite !submitted_app, Hq2. cbn [submitted app complete_all].
    exists w1.
    exists ([EvSliceNew; EvObjectRef dev; EvObjectRef c] ++ pre ++
            [EvObjectUnref c; EvObjectUnref dev; EvSliceFree;
             EvAsyncOperationDone false]).
    exists false.
    assert (Hres : filter is_resource_event
              ([EvSliceNew; EvObjectRef dev; EvObjectRef c] ++ pre ++
               [EvObjectUnref c; EvObjectUnref dev; EvSliceFree;
                EvAsyncOperationDone false])
            = [EvSliceNew; EvObjectRef dev; EvObjectRef c;
               EvObjectUnref c; EvObjectUnref dev; EvSliceFree;
               EvAsyncOperationDone false]).
    { rewrite !filter_app, Hq1. reflexivity. }
    split; [reflexivity |]. split; [exact Ht |].
    split; [exact Hres |].
    rewrite <- reported_resource_events, Hres. reflexivity.
Qed.

End Lifecycle.

Lemma run_finalizes_once_witness :
  exists w' evs b,
    run_to_completion the_device (Some the_cancellable) (inl timed_out)
                      (startup (cli_options DeleteAll) clean_block)
    = Ret tt w'
    /\ trace w' = trace (startup (cli_options DeleteAll) clean_block) ++ evs
    /\ filter is_resource_event evs
       = [EvSliceNew; EvObjectRef the_device; EvObjectRef the_cancellable;
          EvObjectUnref the_cancellable; EvObjectUnref the_device; EvSliceFree;
          EvAsyncOperationDone b]
    /\ reported evs = [b].
Proof.
  apply (@run_finalizes_once demo_codec the_device the_cancellable
           (inl timed_out) (startup (cli_options DeleteAll) clean_block)).
  vm_compute. lia.
Defined.

(** The end-to-end example: a delete of all entries that times out. *)
Example delete_all_timeout :
  run_to_completion the_device (Some the_cancellable) (inl timed_out)
                    (startup (cli_options DeleteAll) clean_block)
  = Ret tt
        (set_ctx
           (Some {| device := Some the_device;
                    cancellable := Some the_cancellable |})
           (add_events
              [EvSliceNew; EvObjectRef the_device; EvObjectRef the_cancellable;
               EvDebug "Asynchronously phonebook delete all...";
               EvDeviceCommand (Some the_device)
                 (mbim_message_phonebook_delete_set_new MBIM_PHONEBOOK_FLAG_ALL 0)
                 10 (Some the_cancellable) cb_set_phonebook_delete_ready;
               EvRequestUnref;
               EvPrinterr ("error: operation failed: %s" ++ nl)
                          [ArgStr "operation timed out"];
               EvErrorFree;
               EvObjectUnref the_cancellable; EvObjectUnref the_device;
               EvSliceFree; EvAsyncOperationDone false]
              (startup (cli_options DeleteAll) clean_block))).
Proof. vm_compute. reflexivity. Qed.

(** * Further properties *)

(** ** The shapes of a run *)

Lemma housekeeping_submitted (pre : list Event) :
  forallb is_housekeeping pre = true -> submitted pre = [].
Proof.
  induction pre as [| e pre IH]; simpl; auto.
  destruct e; simpl; try discriminate; exact IH.
Qed.

Lemma housekeeping_reported (pre : list Event) :
  forallb is_housekeeping pre = true -> reported pre = [].
Proof.
  induction pre as [| e pre IH]; simpl; auto.
  destruct e; simpl; try discriminate; exact IH.
Qed.

Lemma housekeeping_resource (pre : list Event) :
  forallb is_housekeeping pre = true -> filter is_resource_event pre = [].
Proof.
  induction pre as [| e pre IH]; simpl; auto.
  destruct e; simpl; try discriminate; exact IH.
Qed.

Lemma housekeeping_warning (pre : list Event) :
  forallb is_housekeeping pre = true -> existsb is_warning pre = false.
Proof.
  induction pre as [| e pre IH]; simpl; auto.
  destruct e; simpl; try discriminate; exact IH.
Qed.

Ltac count_positive :=
  repeat match goal with
         | |- context [is_set_ptr ?p] => is_var p; destruct p
         | |- context [filter _ (?b :: _)] => is_var b; destruct b
         end;
  simpl; lia.

Ltac shape_submitted pre :=
  eexists;
  eexists (pre ++ [EvDeviceCommand _ _ 10 _ _; EvRequestUnref]);
  split; [reflexivity |]; split; [reflexivity |]; split; [trace_eq |];
  left; exists pre; do 2 eexists;
  split; [reflexivity |]; split; [reflexivity | count_positive].

Ltac shape_failed :=
  unfold shutdown, context_free, g_object_unref; run_step;
  eexists;
  match goal with
  | |- exists body, _ /\ _ = Some ?context /\ _ =>
      eexists ([_; _; _] ++ finalized (Some context) false)
  end;
  split; [reflexivity |]; split; [reflexivity |]; split; [trace_eq |];
  right; left; eexists [_; _; _];
  split; [reflexivity |]; split; [reflexivity | count_positive].

Lemma run_shapes (dev : Handle) (canc : gpointer) (w : World) :
  let context := {| device := Some dev;
                    cancellable := cancellable_field canc w |} in
  exists w' body,
    mbimcli_phonebook_run dev canc w = Ret tt w'
    /\ ctx w' = Some context
    /\ trace w' = trace w ++ acquired dev canc ++ body
    /\ ((exists pre req cb,
           body = pre ++ [EvDeviceCommand (Some dev) req 10
                                          (cancellable_field canc w) cb;
                          EvRequestUnref]
           /\ forallb is_housekeeping pre = true
           /\ (0 < count_set (options w))%nat)
        \/ (exists pre,
              body = pre ++ finalized (Some context) false
              /\ forallb is_housekeeping pre = true
              /\ (0 < count_set (options w))%nat)
        \/ (body = [EvWarnIfReached] /\ count_set (options w) = 0%nat)).
Proof.
  destruct w as [o n ch cx [bd bc] tr].
  destruct o as [cfg ri ra ws us di da].
  unfold count_set, indicators, is_set_int, cancellable_field, acquired.
  cbn [options phonebook_configuration_flag phonebook_read_index
       phonebook_read_all_flag phonebook_write_str phonebook_entry_update_str
       phonebook_delete_index phonebook_delete_all_flag slice_block].
  cbv zeta. unfold mbimcli_phonebook_run.
  destruct canc as [c |]; [| destruct bc as [junk |]]; run_step.
  all: destruct cfg;
    [run_step;
     shape_submitted [EvDebug "Asynchronously querying phonebook configurations..."] |].
  all: destruct (ri =? 0); cbn [negb];
    [| run_step;
       shape_submitted [EvDebug "Asynchronously querying phonebook read..."]].
  all: destruct ra;
    [run_step;
     shape_submitted [EvDebug "Asynchronously querying phonebook read all..."] |].
  all: destruct (di =? 0); cbn [negb];
    [| run_step;
       shape_submitted [EvDebug "Asynchronously phonebook delete..."]].
  all: destruct da;
    [run_step;
     shape_submitted [EvDebug "Asynchronously phonebook delete all..."] |].
  all: destruct ws as [write_str |].
  all: try (rewrite input_parse_cases by auto; cbv zeta;
            destruct (g_strsplit write_str) as [| f1 [| f2 [| f3 l]]]; run_step;
            try shape_failed;
            shape_submitted [EvDebug "Asynchronously writing phonebook..."; EvFree]).
  all: destruct us as [update_str |].
  all: try (rewrite input_parse_cases by auto; cbv zeta;
            destruct (g_strsplit update_str) as [| f1 [| f2 [| f3 [| f4 l]]]];
            run_step; try shape_failed;
            shape_submitted [EvDebug "Asynchronously updating phonebook entry...";
                             EvFree]).
  all: run_step; eexists; exists [EvWarnIfReached];
    split; [reflexivity |]; split; [reflexivity |]; split; [trace_eq |];
    right; right; split; reflexivity.
Qed.

Lemma warning_finalized (context : option Context) (b : bool) :
  existsb is_warning (finalized context b) = false.
Proof. destruct context as [[[d |] [c |]] |]; reflexivity. Qed.

Lemma warning_acquired (dev : Handle) (canc : gpointer) :
  existsb is_warning (acquired dev canc) = false.
Proof. destruct canc; reflexivity. Qed.

Lemma submitted_acquired (dev : Handle) (canc : gpointer) :
  submitted (acquired dev canc) = [].
Proof. destruct canc; reflexivity. Qed.

Lemma reported_acquired (dev : Handle) (canc : gpointer) :
  reported (acquired dev canc) = [].
Proof. destruct canc; reflexivity. Qed.

Lemma resource_acquired (dev : Handle) (canc : gpointer) :
  filter is_resource_event (acquired dev canc) = acquired dev canc.
Proof. destruct canc; reflexivity. Qed.

(** X1. A run always returns, whatever the option variables hold and
    with or without a cancellable, and it reaches [g_warn_if_reached]
    exactly when no action indicator is set: the warning marks the runs the
    option check would not have let through. *)
Theorem run_warns_iff_no_action (dev : Handle) (canc : gpointer) (w : World) :
  exists w' evs,
    mbimcli_phonebook_run dev canc w = Ret tt w'
    /\ trace w' = trace w ++ evs
    /\ (existsb is_warning evs = true <-> count_set (options w) = 0%nat).
Proof.
  destruct (run_shapes dev canc w) as (w' & body & Hrun & _ & Ht & Hshape).
  exists w', (acquired dev canc ++ body).
  split; [exact Hrun |]. split; [exact Ht |].
  rewrite existsb_app, warning_acquired. simpl.
  destruct Hshape as [(pre & req & cb & -> & Hq & Hc)
                     | [(pre & -> & Hq & Hc) | [-> Hc]]].
  - rewrite existsb_app, (housekeeping_warning pre Hq). simpl.
    split; [discriminate | lia].
  - rewrite existsb_app, (housekeeping_warning pre Hq), warning_finalized.
    simpl. split; [discriminate | lia].
  - simpl. split; auto.
Qed.

(** X2. Single in flight: a run with some action set either hands exactly
    one command to the transport and reports nothing yet, or (when the
    write or update text does not parse) hands nothing to the transport
    and reports failure at once; it never does both. *)
Theorem run_submits_or_reports (dev : Handle) (canc : gpointer) (w : World) :
  (0 < count_set (options w))%nat ->
  exists w' evs,
    mbimcli_phonebook_run dev canc w = Ret tt w'
    /\ trace w' = trace w ++ evs
    /\ ((exists cmd, submitted evs = [cmd] /\ reported evs = [])
        \/ (submitted evs = [] /\ reported evs = [false])).
Proof.
  intros Hset.
  destruct (run_shapes dev canc w) as (w' & body & Hrun & _ & Ht & Hshape).
  exists w', (acquired dev canc ++ body).
  split; [exact Hrun |]. split; [exact Ht |].
  rewrite submitted_app, reported_app, submitted_acquired, reported_acquired.
  simpl.
  destruct Hshape as [(pre & req & cb & -> & Hq & Hc)
                     | [(pre & -> & Hq & Hc) | [-> Hc]]].
  - left. eexists. rewrite submitted_app, reported_app.
    rewrite (housekeeping_submitted pre Hq), (housekeeping_reported pre Hq).
    split; reflexivity.
  - right. rewrite submitted_app, reported_app.
    rewrite (housekeeping_submitted pre Hq), (housekeeping_reported pre Hq).
    rewrite submitted_finalized, reported_finalized. split; reflexivity.
  - lia.
Qed.

Lemma run_submits_or_reports_witness :
  exists w' evs,
    mbimcli_phonebook_run the_device None
      (startup (write_option "OnlyName") clean_block) = Ret tt w'
    /\ trace w' = trace (startup (write_option "OnlyName") clean_block) ++ evs
    /\ ((exists cmd, submitted evs = [cmd] /\ reported evs = [])
        \/ (submitted evs = [] /\ reported evs = [false])).
Proof.
  apply (@run_submits_or_reports the_device None
           (startup (write_option "OnlyName") clean_block)).
  vm_compute. lia.
Defined.

(** ** A run and its completion *)

Section CompletedRuns.

Context {codec : Codec}.

Lemma submitted_resolution (context : option Context) (o : OperationOutcome) :
  submitted (resolution context o) = [].
Proof.
  destruct o as [payload | text | text]; unfold resolution;
    rewrite ?submitted_app, submitted_finalized.
  - destruct payload as [[[[[state n] u] mn] mx] | n es | | ]; simpl; auto.
    assert (H : submitted (map print_entry es) = [])
      by (induction es; simpl; auto).
    rewrite H. reflexivity.
  - reflexivity.
  - reflexivity.
Qed.

(** What a run followed by the completion of its command emits. *)
Lemma completed_run_shapes (dev : Handle) (canc : gpointer)
      (res : GAsyncResult) (w : World) :
  let context := {| device := Some dev;
                    cancellable := cancellable_field canc w |} in
  exists w' evs,
    run_to_completion dev canc res w = Ret tt w'
    /\ trace w' = trace w ++ evs
    /\ (((0 < count_set (options w))%nat
         /\ exists b,
              filter is_resource_event evs
              = acquired dev canc ++ finalized (Some context) b
              /\ reported evs = [b]
              /\ Forall (fun cmd => command_cancellable cmd
                                    = cancellable_field canc w)
                        (submitted evs)
              /\ (List.length (submitted evs) <= 1)%nat)
        \/ (count_set (options w) = 0%nat
            /\ evs = acquired dev canc ++ [EvWarnIfReached])).
Proof.
  intros context.
  destruct (run_shapes dev canc w) as (w1 & body & Hrun & Hctx & Ht & Hshape).
  fold context in Hctx, Hshape.
  unfold run_to_completion, bind, get. rewrite Hrun, Ht, skipn_length_app.
  rewrite submitted_app, submitted_acquired. cbn [app].
  destruct Hshape as [(pre & req & cb & -> & Hq & Hc)
                     | [(pre & -> & Hq & Hc) | [-> Hc]]].
  - rewrite submitted_app, (housekeeping_submitted pre Hq).
    cbn [submitted app complete_all]. unfold bind.
    rewrite invoke_resolution. cbv [ret]. rewrite Hctx.
    exists (add_events (resolution (Some context) (outcome_of cb res)) w1).
    exists ((acquired dev canc ++ pre ++
             [EvDeviceCommand (Some dev) req 10 (cancellable_field canc w) cb;
              EvRequestUnref]) ++
            resolution (Some context) (outcome_of cb res)).
    split; [reflexivity |]. split.
    { cbn [trace add_events]. rewrite Ht. now rewrite <- !app_assoc. }
    left. split; [exact Hc |].
    exists (succeeded (outcome_of cb res)).
    assert (Hres : filter is_resource_event
              ((acquired dev canc ++ pre ++
                [EvDeviceCommand (Some dev) req 10 (cancellable_field canc w) cb;
                 EvRequestUnref]) ++
               resolution (Some context) (outcome_of cb res))
            = acquired dev canc ++
              finalized (Some context) (succeeded (outcome_of cb res))).
    { rewrite !filter_app, resource_acquired, (housekeeping_resource pre Hq).
      rewrite resource_resolution. cbn [filter is_resource_event app].
      now rewrite app_nil_r. }
    split; [exact Hres |]. split.
    { rewrite <- reported_resource_events, Hres.
      now rewrite reported_app, reported_acquired, reported_finalized. }
    rewrite !submitted_app, submitted_acquired, submitted_resolution.
    rewrite (housekeeping_submitted pre Hq). simpl.
    split; [repeat constructor | lia].
  - rewrite submitted_app, (housekeeping_submitted pre Hq), submitted_finalized.
    cbn [app complete_all]. cbv [ret].
    exists w1, (acquired dev canc ++ pre ++ finalized (Some context) false).
    split; [reflexivity |]. split; [exact Ht |].
    left. split; [exact Hc |]. exists false.
    assert (Hres : filter is_resource_event
              (acquired dev canc ++ pre ++ finalized (Some context) false)
            = acquired dev canc ++ finalized (Some context) false).
    { rewrite !filter_app, resource_acquired, (housekeeping_resource pre Hq).
      now rewrite resource_finalized. }
    split; [exact Hres |]. split.
    { rewrite <- reported_resource_events, Hres.
      now rewrite reported_app, reported_acquired, reported_finalized. }
    rewrite !submitted_app, submitted_acquired, submitted_finalized.
    rewrite (housekeeping_submitted pre Hq). simpl.
    split; [constructor | lia].
  - cbn [submitted complete_all]. cbv [ret].
    exists w1, (acquired dev canc ++ [EvWarnIfReached]).
    split; [reflexivity |]. split; [exact Ht |].
    right. split; [exact Hc | reflexivity].
Qed.

End CompletedRuns.

Section CompletedRunProperties.

Context {codec : Codec}.

(** X3. With a NULL cancellable the run takes no reference on one, yet the
    [cancellable] field of the context is whatever the block of the slice
    allocator held: the command is submitted with that value, and
    finalization releases it when it is not NULL, a release with no
    matching reference. *)
Theorem null_cancellable_reads_block (dev : Handle) (res : GAsyncResult)
        (w : World) :
  (0 < count_set (options w))%nat ->
  exists w' evs b,
    run_to_completion dev None res w = Ret tt w'
    /\ trace w' = trace w ++ evs
    /\ filter is_resource_event evs
       = [EvSliceNew; EvObjectRef dev] ++
         match cancellable (slice_block w) with
         | Some stale => [EvObjectUnref stale]
         | None => []
         end ++
         [EvObjectUnref dev; EvSliceFree; EvAsyncOperationDone b]
    /\ Forall (fun cmd => command_cancellable cmd = cancellable (slice_block w))
              (submitted evs).
Proof.
  intros Hset.
  destruct (completed_run_shapes dev None res w)
    as (w' & evs & Hrun & Ht & [(_ & b & Hres & _ & Hcmd & _) | (Hzero & _)]);
    [| lia].
  exists w', evs, b. split; [exact Hrun |]. split; [exact Ht |].
  split; [| exact Hcmd].
  rewrite Hres. unfold cancellable_field, finalized, release. simpl.
  destruct (cancellable (slice_block w)); reflexivity.
Qed.

(** X4. A run started with no action set allocates the context and takes
    its references, warns, and stops there: nothing is submitted, nothing
    is released and no outcome is ever reported. *)
Theorem run_without_action_never_finalizes (dev : Handle) (canc : gpointer)
        (res : GAsyncResult) (w : World) :
  count_set (options w) = 0%nat ->
  exists w',
    run_to_completion dev canc res w = Ret tt w'
    /\ trace w' = trace w ++ acquired dev canc ++ [EvWarnIfReached]
    /\ reported (acquired dev canc ++ [EvWarnIfReached]) = []
    /\ submitted (acquired dev canc ++ [EvWarnIfReached]) = [].
Proof.
  intros Hzero.
  destruct (completed_run_shapes dev canc res w)
    as (w' & evs & Hrun & Ht & [(Hpos & _) | (_ & ->)]); [lia |].
  exists w'. split; [exact Hrun |]. split; [exact Ht |].
  rewrite reported_app, submitted_app, reported_acquired, submitted_acquired.
  split; reflexivity.
Qed.

(** X5. The check followed by a run, from the start of the process, for any
    option variables.  If the check answers TRUE, exactly one indicator is
    set, and the run and its completion report one outcome, give back what
    they took and submit at most one command.  If it answers FALSE, no
    indicator is set and a run would only warn.  Otherwise the process has
    ended with EXIT_FAILURE, more than one indicator being set, before
    anything was submitted. *)
Theorem check_then_run (o : Options) (junk : Context) (dev c : Handle)
        (res : GAsyncResult) :
  match mbimcli_phonebook_options_enabled (startup o junk) with
  | Ret true w1 =>
      count_set o = 1%nat
      /\ exists w' b,
           run_to_completion dev (Some c) res w1 = Ret tt w'
           /\ reported (trace w') = [b]
           /\ filter is_resource_event (trace w')
              = [EvSliceNew; EvObjectRef dev; EvObjectRef c;
                 EvObjectUnref c; EvObjectUnref dev; EvSliceFree;
                 EvAsyncOperationDone b]
           /\ (List.length (submitted (trace w')) <= 1)%nat
  | Ret false w1 =>
      count_set o = 0%nat
      /\ exists w',
           run_to_completion dev (Some c) res w1 = Ret tt w'
           /\ trace w' = [EvSliceNew; EvObjectRef dev; EvObjectRef c;
                          EvWarnIfReached]
  | Exit status w1 =>
      (1 < count_set o)%nat /\ status = EXIT_FAILURE
      /\ submitted (trace w1) = []
  | Abort _ => False
  end.
Proof.
  rewrite (options_enabled_first (startup o junk) eq_refl). cbv zeta.
  cbn [options startup].
  destruct (Z.ltb_spec 1 (Z.of_nat (count_set o))) as [Hmany | Hfew].
  - split; [lia |]. split; reflexivity.
  - destruct (Z.eqb_spec (Z.of_nat (count_set o)) 0) as [Hnone | Hsome];
      cbn [negb].
    + split; [lia |].
      destruct (completed_run_shapes dev (Some c) res
                  (set_checked true
                     (set_n_actions (Z.of_nat (count_set o)) (startup o junk))))
        as (w' & evs & Hrun & Ht & [(Hpos & _) | (_ & ->)]).
      * cbn [options set_checked set_n_actions startup] in Hpos. lia.
      * exists w'. split; [exact Hrun | exact Ht].
    + split; [lia |].
      destruct (completed_run_shapes dev (Some c) res
                  (set_checked true
                     (set_n_actions (Z.of_nat (count_set o)) (startup o junk))))
        as (w' & evs & Hrun & Ht &
            [(_ & b & Hres & Hrep & _ & Hlen) | (Hzero & _)]).
      * exists w', b. cbn [trace set_checked set_n_actions startup app] in Ht.
        rewrite Ht. split; [exact Hrun |]. split; [exact Hrep |].
        split; [exact Hres | exact Hlen].
      * cbn [options set_checked set_n_actions startup] in Hzero. lia.
Qed.

End CompletedRunProperties.

Lemma null_cancellable_reads_block_witness :
  exists w' evs b,
    run_to_completion the_device None (inr DemoAcknowledgement)
                      (startup (write_option "Alice,555-1000") stale_block)
    = Ret tt w'
    /\ trace w' = trace (startup (write_option "Alice,555-1000") stale_block)
                  ++ evs
    /\ filter is_resource_event evs
       = [EvSliceNew; EvObjectRef the_device] ++
         match cancellable
                 (slice_block (startup (write_option "Alice,555-1000")
                                       stale_block)) with
         | Some stale => [EvObjectUnref stale]
         | None => []
         end ++
         [EvObjectUnref the_device; EvSliceFree; EvAsyncOperationDone b]
    /\ Forall (fun cmd =>
                 command_cancellable cmd
                 = cancellable
                     (slice_block (startup (write_option "Alice,555-1000")
                                           stale_block)))
              (submitted evs).
Proof.
  apply (@null_cancellable_reads_block demo_codec the_device
           (inr DemoAcknowledgement)
           (startup (write_option "Alice,555-1000") stale_block)).
  vm_compute. lia.
Defined.

Lemma run_without_action_never_finalizes_witness :
  exists w',
    run_to_completion the_device (Some the_cancellable) (inl timed_out)
                      (startup no_options clean_block) = Ret tt w'
    /\ trace w' = trace (startup no_options clean_block) ++
                  acquired the_device (Some the_cancellable) ++
                  [EvWarnIfReached]
    /\ reported (acquired the_device (Some the_cancellable) ++
                 [EvWarnIfReached]) = []
    /\ submitted (acquired the_device (Some the_cancellable) ++
                  [EvWarnIfReached]) = [].
Proof.
  apply (@run_without_action_never_finalizes demo_codec the_device
           (Some the_cancellable) (inl timed_out)
           (startup no_options clean_block)).
  reflexivity.
Defined.

(** ** What the completion callbacks leave alone *)

Lemma response_unref_finalized (context : option Context) (b : bool) :
  filter is_response_unref (finalized context b) = [].
Proof. destruct context as [[[d |] [c |]] |]; reflexivity. Qed.

Lemma error_free_finalized (context : option Context) (b : bool) :
  filter is_error_free (finalized context b) = [].
Proof. destruct context as [[[d |] [c |]] |]; reflexivity. Qed.

Lemma response_unref_entries (es : list MbimPhonebookEntry) :
  filter is_response_unref (map print_entry es) = [].
Proof. induction es; simpl; auto. Qed.

Lemma error_free_entries (es : list MbimPhonebookEntry) :
  filter is_error_free (map print_entry es) = [].
Proof. induction es; simpl; auto. Qed.

Section CallbackProperties.

Context {codec : Codec}.

(** X6. No callback hands anything to the transport: a completion, good or
    bad, is never followed by a second request or by a retry. *)
Theorem completion_submits_nothing (callback : GAsyncReadyCallback)
        (d : gpointer) (res : GAsyncResult) (w : World) :
  exists w',
    invoke callback d res w = Ret tt w'
    /\ submitted (trace w') = submitted (trace w).
Proof.
  eexists. split; [apply invoke_resolution |].
  cbn [trace add_events].
  now rewrite submitted_app, submitted_resolution, app_nil_r.
Qed.

(** X7. A callback releases the response message exactly when the response
    parses, and frees a [GError] exactly when it does not succeed.  On a
    response that fails to parse the message is therefore never released. *)
Theorem response_released_only_on_success (callback : GAsyncReadyCallback)
        (d : gpointer) (res : GAsyncResult) (w : World) :
  let o := outcome_of callback res in
  exists evs,
    invoke callback d res w = Ret tt (add_events evs w)
    /\ filter is_response_unref evs
       = (if succeeded o then [EvResponseUnref] else [])
    /\ filter is_error_free evs
       = (if succeeded o then [] else [EvErrorFree]).
Proof.
  intros o. exists (resolution (ctx w) o).
  split; [apply invoke_resolution |].
  destruct o as [payload | text | text]; unfold resolution;
    rewrite ?filter_app, ?response_unref_finalized, ?error_free_finalized.
  - destruct payload as [[[[[state n] u] mn] mx] | n es | | ]; simpl;
      rewrite ?response_unref_entries, ?error_free_entries; split; reflexivity.
  - split; reflexivity.
  - split; reflexivity.
Qed.

End CallbackProperties.

(** ** The bounds of the print loop *)

Lemma print_entries_cases (es : list MbimPhonebookEntry) (i todo : nat)
        (w : World) :
  ((i + todo <= List.length es)%nat ->
     print_entries_from es i todo w
     = Ret tt (add_events (map print_entry (firstn todo (skipn i es))) w))
  /\ ((List.length es < i + todo)%nat -> (0 < todo)%nat ->
        print_entries_from es i todo w
        = Abort (add_events (map print_entry (skipn i es)) w)).
Proof.
  revert i w. induction todo as [| todo IH]; intros i w.
  - split; [intros H | intros H H0; lia]. simpl. now rewrite add_events_nil.
  - simpl. destruct (nth_error es i) as [e |] eqn:He.
    + assert (Hi : (i < List.length es)%nat)
        by (apply nth_error_Some; congruence).
      assert (Hskip : skipn i es = e :: skipn (S i) es).
      { clear IH. revert i He Hi. induction es as [| a es IHes]; intros i He Hi.
        - simpl in Hi. lia.
        - destruct i as [| i]; simpl in *.
          + now inversion He.
          + apply IHes; [exact He | lia]. }
      unfold bind, emit. destruct (IH (S i) (add_event (print_entry e) w))
        as [Hin Hout].
      split; [intros H | intros H H0].
      * rewrite Hin by lia. rewrite Hskip. simpl.
        rewrite add_event_one, add_events_events. reflexivity.
      * rewrite Hout by lia. rewrite Hskip. simpl.
        rewrite add_event_one, add_events_events. reflexivity.
    + apply nth_error_None in He.
      split; [intros H; lia | intros H H0].
      rewrite skipn_all2 by exact He. simpl. now rewrite add_events_nil.
Qed.

(** X8. The loop of the read callback prints the [todo] entries from
    position [i] on when the array holds that many (or none is asked for);
    when it holds fewer, the loop prints those there are and then reads
    past the end of the array. *)
Theorem print_entries_bounds (es : list MbimPhonebookEntry) (i todo : nat)
        (w : World) :
  print_entries_from es i todo w
  = if Nat.leb (i + todo) (List.length es) || Nat.eqb todo 0 then
      Ret tt (add_events (map print_entry (firstn todo (skipn i es))) w)
    else
      Abort (add_events (map print_entry (skipn i es)) w).
Proof.
  destruct (print_entries_cases es i todo w) as [Hin Hout].
  destruct (Nat.leb_spec (i + todo) (List.length es)) as [Hle | Hgt]; simpl.
  - exact (Hin Hle).
  - destruct (Nat.eqb_spec todo 0) as [-> | Hpos].
    + simpl. now rewrite add_events_nil.
    + apply Hout; lia.
Qed.

(** ** The cache of the option check *)

(** X9. The statics of the check stay consistent with the option
    variables: from a consistent state (the start of the process is one), a
    call that returns leaves a consistent state, changes neither the option
    variables nor the trace, and answers TRUE exactly when exactly one
    indicator is set. *)
Theorem options_enabled_keeps_consistency (w w1 : World) (enabled : bool) :
  check_consistent w ->
  mbimcli_phonebook_options_enabled w = Ret enabled w1 ->
  check_consistent w1
  /\ checked w1 = true
  /\ options w1 = options w
  /\ trace w1 = trace w
  /\ (enabled = true <-> count_set (options w) = 1%nat).
Proof.
  intros Hinv Hcall. destruct (checked w) eqn:Hc.
  - rewrite (options_enabled_cached w Hc) in Hcall.
    inversion Hcall; subst. destruct (Hinv Hc) as [Hn Hle].
    split; [exact Hinv |]. split; [exact Hc |].
    split; [reflexivity |]. split; [reflexivity |].
    rewrite Hn. destruct (Z.eqb_spec (Z.of_nat (count_set (options w1))) 0);
      simpl; split; intros H; try discriminate; try reflexivity; lia.
  - rewrite (options_enabled_first w Hc) in Hcall. cbv zeta in Hcall.
    destruct (Z.ltb_spec 1 (Z.of_nat (count_set (options w))));
      [discriminate |].
    inversion Hcall; subst.
    split; [intros _; simpl; split; [reflexivity | lia] |].
    split; [reflexivity |]. split; [reflexivity |]. split; [reflexivity |].
    destruct (Z.eqb_spec (Z.of_nat (count_set (options w))) 0);
      simpl; split; intros H'; try discriminate; try reflexivity; lia.
Qed.

Lemma startup_consistent (o : Options) (junk : Context) :
  check_consistent (startup o junk).
Proof. intros H. discriminate H. Qed.

Lemma options_enabled_keeps_consistency_witness :
  let w := startup (cli_options ReadAll) clean_block in
  let w1 := set_checked true (set_n_actions 1 w) in
  check_consistent w1
  /\ checked w1 = true
  /\ options w1 = options w
  /\ trace w1 = trace w
  /\ (true = true <-> count_set (options w) = 1%nat).
Proof.
  intros w w1.
  apply (@options_enabled_keeps_consistency w w1 true).
  - apply startup_consistent.
  - reflexivity.
Defined.

(** ** The parser and the text it is given *)

Lemma split_fields_not_nil (s : string) : split_fields s <> [].
Proof.
  destruct s as [| c s]; simpl; [discriminate |].
  destruct (Ascii.eqb c comma); [discriminate |].
  destruct (split_fields s); discriminate.
Qed.

Lemma join_fields_cons (f : string) (fs : list string) :
  fs <> [] -> join_fields (f :: fs) = (f ++ String comma (join_fields fs))%string.
Proof. destruct fs; [congruence | reflexivity]. Qed.

Lemma join_split_fields (s : string) : join_fields (split_fields s) = s.
Proof.
  induction s as [| c s IH]; [reflexivity |].
  pose proof (split_fields_not_nil s) as Hne.
  cbn [split_fields]. destruct (Ascii.eqb_spec c comma) as [-> | Hc].
  - rewrite (join_fields_cons EmptyString Hne), IH. reflexivity.
  - destruct (split_fields s) as [| f fs]; [congruence |].
    destruct fs as [| g gs].
    + simpl in IH. subst s. reflexivity.
    + rewrite join_fields_cons by discriminate.
      rewrite join_fields_cons in IH by discriminate.
      rewrite <- IH. reflexivity.
Qed.

Lemma split_fields_all_comma_free (s : string) :
  forallb comma_free (split_fields s) = true.
Proof.
  induction s as [| c s IH]; [reflexivity |].
  cbn [split_fields]. destruct (Ascii.eqb c comma) eqn:Hc.
  - simpl. exact IH.
  - destruct (split_fields s) as [| f fs]; simpl in *.
    + now rewrite Hc.
    + rewrite Hc. exact IH.
Qed.

Lemma join_g_strsplit (str : string) : join_fields (g_strsplit str) = str.
Proof. destruct str; [reflexivity | apply join_split_fields]. Qed.

Lemma g_strsplit_all_comma_free (str : string) :
  forallb comma_free (g_strsplit str) = true.
Proof. destruct str; [reflexivity | apply split_fields_all_comma_free]. Qed.

(** X10. What the parser returns is the text it was given, cut and nothing
    more: when it returns TRUE, name and number are not NULL, the index is
    NULL exactly when two fields were expected, no field holds a comma, and
    the fields joined by commas give the text back.  The expected count is
    then 2 or 3, and the only event is the release of the vector. *)
Theorem parsed_fields_rejoin (n_expected : nat) (str : string) (w w' : World)
        (name number index_str : gchar_p) :
  phonebook_write_input_parse n_expected str w
  = Ret (Some (name, number, index_str)) w' ->
  (n_expected = 2%nat \/ n_expected = 3%nat)
  /\ (exists name_text number_text,
        name = Some name_text /\ number = Some number_text)
  /\ (index_str = None <-> n_expected = 2%nat)
  /\ join_fields (present [name; number; index_str]) = str
  /\ forallb comma_free (present [name; number; index_str]) = true
  /\ w' = add_events [EvFree] w.
Proof.
  intros Hparse.
  assert (Hn : n_expected = 2%nat \/ n_expected = 3%nat).
  { destruct n_expected as [| [| [| [| n]]]]; auto;
      unfold phonebook_write_input_parse in Hparse;
      cbv [g_assert Nat.eqb orb bind abort] in Hparse; discriminate. }
  split; [exact Hn |].
  rewrite (input_parse_cases str w Hn) in Hparse. cbv zeta in Hparse.
  pose proof (join_g_strsplit str) as Hjoin.
  pose proof (g_strsplit_all_comma_free str) as Hfree.
  destruct Hn as [-> | ->].
  - destruct (g_strsplit str) as [| f1 [| f2 [| f3 l]]];
      simpl in Hparse; try discriminate.
    inversion Hparse; subst.
    split; [eauto |]. split; [split; auto |].
    split; [reflexivity |]. split; [exact Hfree | reflexivity].
  - destruct (g_strsplit str) as [| f1 [| f2 [| f3 [| f4 l]]]];
      simpl in Hparse; try discriminate.
    inversion Hparse; subst.
    split; [eauto |]. split; [split; intros H; [discriminate | lia] |].
    split; [reflexivity |]. split; [exact Hfree | reflexivity].
Qed.

Lemma parsed_fields_rejoin_witness :
  (3%nat = 2%nat \/ 3%nat = 3%nat)
  /\ (exists name_text number_text,
        Some "Alice" = Some name_text /\ Some "555-1000" = Some number_text)
  /\ (Some "7" = None <-> 3%nat = 2%nat)
  /\ join_fields (present [Some "Alice"; Some "555-1000"; Some "7"])
     = "Alice,555-1000,7"
  /\ forallb comma_free (present [Some "Alice"; Some "555-1000"; Some "7"])
     = true
  /\ add_events [EvFree] (startup no_options clean_block)
     = add_events [EvFree] (startup no_options clean_block).
Proof.
  apply (@parsed_fields_rejoin 3 "Alice,555-1000,7"
           (startup no_options clean_block)
           (add_events [EvFree] (startup no_options clean_block))
           (Some "Alice") (Some "555-1000") (Some "7")).
  reflexivity.
Defined.

(** X11. Fields that hold no comma come back from the parser as they went
    in: the text of two such fields parses, for a write, into these two
    fields and a NULL index, and the text of three parses, for an update,
    into these three; nothing is printed. *)
Theorem parse_joined_fields (name_text number_text index_text : string)
        (w : World) :
  comma_free name_text = true ->
  comma_free number_text = true ->
  comma_free index_text = true ->
  phonebook_write_input_parse 2 (join2 name_text number_text) w
  = Ret (Some (Some name_text, Some number_text, None)) (add_events [EvFree] w)
  /\ phonebook_write_input_parse 3 (join3 name_text number_text index_text) w
     = Ret (Some (Some name_text, Some number_text, Some index_text))
           (add_events [EvFree] w).
Proof.
  intros Hn Hm Hi. split.
  - rewrite input_parse_cases by auto.
    now rewrite (g_strsplit_join2 _ _ Hn Hm).
  - rewrite input_parse_cases by auto.
    now rewrite (g_strsplit_join3 _ _ _ Hn Hm Hi).
Qed.

Lemma parse_joined_fields_witness :
  phonebook_write_input_parse 2 (join2 "Name" "Number")
                              (startup no_options clean_block)
  = Ret (Some (Some "Name", Some "Number", None))
        (add_events [EvFree] (startup no_options clean_block))
  /\ phonebook_write_input_parse 3 (join3 "Name" "Number" "Index")
                                 (startup no_options clean_block)
     = Ret (Some (Some "Name", Some "Number", Some "Index"))
           (add_events [EvFree] (startup no_options clean_block)).
Proof.
  apply (@parse_joined_fields "Name" "Number" "Index"
           (startup no_options clean_block)); reflexivity.
Defined.

(** ** The write and update texts, by their commas *)

Lemma commas_of_fields (str : string) :
  count_commas str = Nat.pred (List.length (g_strsplit str)).
Proof.
  rewrite g_strsplit_length. destruct str; reflexivity.
Qed.

(** X12. A write is submitted exactly when its text holds exactly one comma.
    The text is then name, comma, number, and the request carries the
    save-unused flag, index 0 and these two texts as they are, empty or not.
    With no comma the missing-arguments error is printed, with two or more
    the too-many-arguments error; nothing goes to the transport and failure
    is reported. *)
Theorem run_write_needs_one_comma (str : string) (dev c : Handle) (w : World) :
  exists w' evs,
    mbimcli_phonebook_run dev (Some c) (set_options (write_option str) w)
    = Ret tt w'
    /\ trace w' = trace w ++ evs
    /\ if Nat.eqb (count_commas str) 1 then
         exists name_text number_text,
           str = join2 name_text number_text
           /\ submitted evs
              = [(Some dev,
                  mbim_message_phonebook_write_set_new
                    MBIM_PHONEBOOK_WRITE_FLAG_SAVE_UNUSED 0
                    (Some number_text) (Some name_text),
                  10, Some c, cb_set_phonebook_write_ready)]
           /\ reported evs = []
       else
         submitted evs = [] /\ reported evs = [false]
         /\ In (if Nat.eqb (count_commas str) 0 then missing_arguments
                else too_many_arguments) evs.
Proof.
  pose proof (join_g_strsplit str) as Hjoin.
  rewrite (commas_of_fields str).
  unfold mbimcli_phonebook_run, write_option; run_step.
  rewrite input_parse_cases by auto. cbv zeta.
  destruct (g_strsplit str) as [| f1 [| f2 [| f3 l]]]; run_step;
    try (unfold shutdown, context_free, g_object_unref; run_step);
    eexists; eexists; (split; [reflexivity |]); (split; [trace_eq |]);
    cbn [List.length Nat.pred Nat.eqb].
  - split; [reflexivity |]. split; [reflexivity |]. simpl. tauto.
  - split; [reflexivity |]. split; [reflexivity |]. simpl. tauto.
  - exists f1, f2. split; [symmetry; exact Hjoin |]. split; reflexivity.
  - split; [reflexivity |]. split; [reflexivity |]. simpl. tauto.
Qed.

(** X13. An update is submitted exactly when its text holds exactly two
    commas.  The text is then name, comma, number, comma, index, and the
    request carries the save-index flag, the index converted by [atoi] and
    the two texts.  With fewer commas the missing-arguments error is
    printed, with more the too-many-arguments error; nothing goes to the
    transport and failure is reported. *)
Theorem run_update_needs_two_commas (str : string) (dev c : Handle)
        (w : World) :
  exists w' evs,
    mbimcli_phonebook_run dev (Some c) (set_options (update_option str) w)
    = Ret tt w'
    /\ trace w' = trace w ++ evs
    /\ if Nat.eqb (count_commas str) 2 then
         exists name_text number_text index_text,
           str = join3 name_text number_text index_text
           /\ submitted evs
              = [(Some dev,
                  mbim_message_phonebook_write_set_new
                    MBIM_PHONEBOOK_WRITE_FLAG_SAVE_INDEX (atoi index_text)
                    (Some number_text) (Some name_text),
                  10, Some c, cb_set_phonebook_write_ready)]
           /\ reported evs = []
       else
         submitted evs = [] /\ reported evs = [false]
         /\ In (if Nat.ltb (count_commas str) 2 then missing_arguments
                else too_many_arguments) evs.
Proof.
  pose proof (join_g_strsplit str) as Hjoin.
  rewrite (commas_of_fields str).
  unfold mbimcli_phonebook_run, update_option; run_step.
  rewrite input_parse_cases by auto. cbv zeta.
  destruct (g_strsplit str) as [| f1 [| f2 [| f3 [| f4 l]]]]; run_step;
    try (unfold shutdown, context_free, g_object_unref; run_step);
    eexists; eexists; (split; [reflexivity |]); (split; [trace_eq |]);
    cbn [List.length Nat.pred Nat.eqb Nat.ltb Nat.leb].
  - split; [reflexivity |]. split; [reflexivity |]. simpl. tauto.
  - split; [reflexivity |]. split; [reflexivity |]. simpl. tauto.
  - split; [reflexivity |]. split; [reflexivity |]. simpl. tauto.
  - exists f1, f2, f3. split; [symmetry; exact Hjoin |]. split; reflexivity.
  - split; [reflexivity |]. split; [reflexivity |]. simpl. tauto.
Qed.

(** ** From the command line to the request *)


Section OptionTable.

(** glib's reading of the value of an integer option. *)
Variable parse_int : string -> option Z.




End OptionTable.


